(** * NBG CLI: a shallow embedding of [src/index.js] and [src/api.js]

    The command-line client maps each subcommand onto one REST call and
    formats the JSON answer.  This development embeds the helpers
    ([printTable], [printJson], [printError], [withSpinner]), the HTTP layer
    of [api.js] ([getClient] and the fifteen request functions) and every
    command action of [index.js], and proves the properties stated about
    them.

    Conventions of the embedding.
    - A JavaScript string is the list of its UTF-16 code units ([jstring]),
      so [length] is the [.length] of the source, [take] its
      [substring(0, n)], and text outside ASCII or outside the basic plane
      is counted as the engine counts it.
    - JavaScript values are the JSON values plus [undefined]; an object is
      the list of its own properties in enumeration order.  Objects are
      plain data: an object that is converted to text holds no own property
      named [toString], so that the conversion is the one of
      [Object.prototype].
    - The engine's numbers and the [chalk] colouring library are taken as an
      interface ([Runtime]): the program only converts numbers to text and
      tests their truthiness, and only wraps text with [chalk].
    - A command action runs in a small monad that records the observable
      events (spinner, HTTP request, console output) and carries the thrown
      exception, if any.  The spinner is drawn by [ora] on the terminal's
      error stream; [console.log] and [console.error] are the only writes
      of the program itself, and [stdout] and [stderr] below collect the
      calls of these two functions. *)

From Stdlib Require Import ZArith NArith Ascii String List Strings.Byte.
From stdpp Require Import base option list gmap strings pretty.

Local Set Warnings "-register-all".

(** ** Strings *)

(** A string value: its UTF-16 code units. *)
Abbreviation jstring := (list N).

(** Literals.  A literal between double quotes stands for the list of the
    codes of its characters; it is read for ASCII text only, the three
    other characters of the source are given by their code below. *)
Inductive literal := literal_end | literal_unit (u : N) (rest : literal).

Fixpoint literal_of_bytes (bs : list Byte.byte) : option literal :=
  match bs with
  | [] => Some literal_end
  | b :: rest =>
      if N.ltb (Byte.to_N b) 128
      then match literal_of_bytes rest with
           | Some l => Some (literal_unit (Byte.to_N b) l)
           | None => None
           end
      else None
  end.

Fixpoint bytes_of_literal (l : literal) : option (list Byte.byte) :=
  match l with
  | literal_end => Some []
  | literal_unit u rest =>
      if N.ltb u 128
      then match Byte.of_N u, bytes_of_literal rest with
           | Some b, Some bs => Some (b :: bs)
           | _, _ => None
           end
      else None
  end.

Declare Scope js_scope.
Delimit Scope js_scope with js.
#[local] Set Warnings "-via-type-mismatch".
String Notation list literal_of_bytes bytes_of_literal
  (via literal mapping [[nil] => literal_end, [cons] => literal_unit])
  : js_scope.
#[local] Set Warnings "via-type-mismatch".
Local Open Scope js_scope.

(** U+2713 CHECK MARK, U+2717 BALLOT X and U+2500 BOX DRAWINGS LIGHT
    HORIZONTAL, each one code unit. *)
Definition check_mark : jstring := [10003%N].
Definition ballot_x : jstring := [10007%N].
Definition light_horizontal : jstring := [9472%N].

(** The code units of ASCII text (the decimal digits of an index). *)
Definition code_units (s : string) : jstring :=
  List.map N_of_ascii (list_ascii_of_string s).

(** [a === b] on strings *)
Fixpoint jeqb (a b : jstring) : bool :=
  match a, b with
  | [], [] => true
  | x :: a', y :: b' => N.eqb x y && jeqb a' b'
  | _, _ => false
  end.

(** [parts.join(sep)] on an array of strings *)
Fixpoint join (sep : jstring) (parts : list jstring) : jstring :=
  match parts with
  | [] => []
  | p :: rest =>
      match rest with
      | [] => p
      | _ :: _ => p ++ sep ++ join sep rest
      end
  end.

(** [s.repeat(n)] *)
Fixpoint repeat_string (s : jstring) (n : nat) : jstring :=
  match n with
  | O => []
  | S m => s ++ repeat_string s m
  end.

(** ** The host: numbers and chalk *)

Inductive style := Red | Green | Yellow | Cyan | Bold | Dim.

Class Runtime := {
  (** the engine's Number type *)
  number : Type;
  (** Number::toString, radix 10 *)
  number_to_string : number -> jstring;
  (** ToBoolean on a number: false on +0, -0 and NaN *)
  number_truthy : number -> bool;
  (** false on NaN and the infinities *)
  number_finite : number -> bool;
  (** the number denoting a length or an index *)
  number_of_nat : nat -> number;
  (** [chalk.<style>(text)]: the text wrapped for the terminal *)
  paint : style -> jstring -> jstring;
  (** [String(Object.prototype[name])] for a property name of
      [Object.prototype]: the text of a built-in *)
  builtin_to_string : jstring -> jstring
}.

Section JavaScript.

Context `{RT : Runtime}.

(** ** JavaScript values *)

Inductive value :=
| JUndefined
| JNull
| JBool (b : bool)
| JNum (n : number)
| JStr (s : jstring)
| JArr (xs : list value)
| JObj (props : list (jstring * value)).

(** [v === undefined || v === null] *)
Definition nullish (v : value) : bool :=
  match v with
  | JUndefined | JNull => true
  | _ => false
  end.

(** ToBoolean *)
Definition truthy (v : value) : bool :=
  match v with
  | JUndefined | JNull => false
  | JBool b => b
  | JNum n => number_truthy n
  | JStr s => negb (jeqb s "")
  | JArr _ | JObj _ => true
  end.

(** [a || b] with [b] free of effects *)
Definition or_ (a b : value) : value := if truthy a then a else b.

(** [a ?? b] *)
Definition coalesce (a b : value) : value := if nullish a then b else a.

(** ToString (the [String(v)] call, template literals and [+] on a string).
    Array.prototype.join prints a nullish element as the empty string; a
    plain object prints through [Object.prototype.toString]. *)
Fixpoint ToString (v : value) : jstring :=
  match v with
  | JUndefined => "undefined"
  | JNull => "null"
  | JBool true => "true"
  | JBool false => "false"
  | JNum n => number_to_string n
  | JStr s => s
  | JArr xs =>
      join "," (List.map (fun x => if nullish x then "" else ToString x) xs)
  | JObj _ => "[object Object]"
  end.

(** [xs.join(sep)] *)
Definition array_join (sep : jstring) (xs : list value) : jstring :=
  join sep (List.map (fun x => if nullish x then "" else ToString x) xs).

(** Own property lookup in an object: the first binding of the key. *)
Fixpoint assoc (k : jstring) (props : list (jstring * value)) : value :=
  match props with
  | [] => JUndefined
  | (k', v) :: rest => if jeqb k k' then v else assoc k rest
  end.

(** The index a property name denotes among [0 .. n-1], if any. *)
Definition index_of_name (k : jstring) (n : nat) : option nat :=
  List.find (fun i => jeqb (code_units (pretty i)) k) (seq 0 n).

(** The [i]-th code unit of a string as a one-character string. *)
Definition char_at (s : jstring) (i : nat) : value :=
  match s !! i with
  | Some c => JStr [c]
  | None => JUndefined
  end.

(** [v[k]] on a value that is neither [undefined] nor [null].  The values
    are JSON data: the only properties besides the own ones are [length]
    and the indices of arrays and strings (methods are not data and the
    program reads none of them through this path). *)
Definition property (v : value) (k : jstring) : value :=
  match v with
  | JObj props => assoc k props
  | JArr xs =>
      if jeqb k "length" then JNum (number_of_nat (length xs))
      else match index_of_name k (length xs) with
           | Some i => nth i xs JUndefined
           | None => JUndefined
           end
  | JStr s =>
      if jeqb k "length" then JNum (number_of_nat (length s))
      else match index_of_name k (length s) with
           | Some i => char_at s i
           | None => JUndefined
           end
  | _ => JUndefined
  end.

(** [v[i]] for a numeric index, on a value that is not nullish. *)
Definition element (v : value) (i : nat) : value :=
  match v with
  | JObj props => assoc (code_units (pretty i)) props
  | JArr xs => nth i xs JUndefined
  | JStr s => char_at s i
  | _ => JUndefined
  end.

(** ** JSON.stringify *)

Definition dquote : jstring := [34%N].
Definition newline : jstring := [10%N].

(** The code of the lower-case hexadecimal digit of [n < 16]. *)
Definition hex_digit (n : N) : N :=
  if N.ltb n 10 then (48 + n)%N else (87 + n)%N.

(** UnicodeEscape: [\uXXXX] *)
Definition unicode_escape (u : N) : jstring :=
  "\u" ++ [hex_digit (u / 4096 mod 16); hex_digit (u / 256 mod 16);
           hex_digit (u / 16 mod 16); hex_digit (u mod 16)]%N.

Definition leading_surrogate (u : N) : bool :=
  N.leb 55296 u && N.leb u 56319.

Definition trailing_surrogate (u : N) : bool :=
  N.leb 56320 u && N.leb u 57343.

(** QuoteJSONString on one code unit that is no surrogate. *)
Definition quote_char (u : N) : jstring :=
  if N.eqb u 34 then "\" ++ dquote
  else if N.eqb u 92 then "\\"
  else if N.eqb u 8 then "\b"
  else if N.eqb u 12 then "\f"
  else if N.eqb u 10 then "\n"
  else if N.eqb u 13 then "\r"
  else if N.eqb u 9 then "\t"
  else if N.ltb u 32 then unicode_escape u
  else [u].

(** QuoteJSONString walks the code points of the string: a surrogate pair
    is copied, a surrogate that stands alone is escaped. *)
Fixpoint quote_body (s : jstring) : jstring :=
  match s with
  | [] => []
  | u :: rest =>
      if leading_surrogate u
      then match rest with
           | v :: rest' =>
               if trailing_surrogate v then u :: v :: quote_body rest'
               else unicode_escape u ++ quote_body rest
           | [] => unicode_escape u
           end
      else if trailing_surrogate u then unicode_escape u ++ quote_body rest
      else quote_char u ++ quote_body rest
  end.

Definition quote (s : jstring) : jstring := dquote ++ quote_body s ++ dquote.

(** The brackets around the serialised members of an array or object. *)
Definition bracket (opening closing gap stepback indent : jstring)
    (parts : list jstring) : jstring :=
  match parts with
  | [] => opening ++ closing
  | _ =>
      if jeqb gap "" then opening ++ join "," parts ++ closing
      else opening ++ newline ++ indent
           ++ join ("," ++ newline ++ indent) parts
           ++ newline ++ stepback ++ closing
  end.

(** SerializeJSONProperty: [None] is the [undefined] result. *)
Fixpoint serialize (gap indent : jstring) (v : value) : option jstring :=
  match v with
  | JUndefined => None
  | JNull => Some "null"
  | JBool true => Some "true"
  | JBool false => Some "false"
  | JNum n => Some (if number_finite n then number_to_string n else "null")
  | JStr s => Some (quote s)
  | JArr xs =>
      let inner := indent ++ gap in
      Some (bracket "[" "]" gap indent inner
              (List.map (fun x => default "null" (serialize gap inner x)) xs))
  | JObj props =>
      let inner := indent ++ gap in
      Some (bracket "{" "}" gap indent inner
              ((fix members (ps : list (jstring * value)) : list jstring :=
                  match ps with
                  | [] => []
                  | (k, x) :: rest =>
                      match serialize gap inner x with
                      | Some s =>
                          (quote k ++ ":"
                             ++ (if jeqb gap "" then "" else " ") ++ s)
                            :: members rest
                      | None => members rest
                      end
                  end) props))
  end.

(** [JSON.stringify(v, null, space)] for a numeric [space]. *)
Definition JSON_stringify (v : value) (space : nat) : value :=
  match serialize (repeat_string " " (Nat.min space 10)) "" v with
  | Some s => JStr s
  | None => JUndefined
  end.

(** ** Observable events, exceptions and the action monad *)

Inductive http_method := GET | POST | DELETE.

(** What is handed to axios for one call. [params = None]: no config
    object was passed; [body = None]: no request body. *)
Record request := {
  method : http_method;
  baseURL : value;
  url : jstring;
  params : option (gmap jstring value);
  headers : gmap jstring value;
  body : option value
}.

(** A thrown error object: its [message], and [response.data] when the
    error carries a [response] (a non-2xx answer). *)
Record js_error := {
  err_message : jstring;
  err_response : option value
}.

Definition TypeError (msg : jstring) : js_error :=
  {| err_message := msg; err_response := None |}.

(** The settled promise of an axios call: [response.data] of a 2xx answer,
    or the rejection. *)
Inductive http_result :=
| Resolved (data : value)
| Rejected (e : js_error).

(** What a run does to the outside, in order.  The spinner is drawn by
    [ora]; its frames are no call of [console.log] or [console.error]. *)
Inductive event :=
| SpinnerStart (text : jstring)
| SpinnerStop
| Http (r : request)
| ConsoleLog (args : list value)
| ConsoleError (args : list value)
| ProcessExit (code : nat).

Definition M (A : Type) : Type := (list event * (js_error + A))%type.

Definition ret {A} (a : A) : M A := ([], inr a).

Definition bind {A B} (m : M A) (f : A -> M B) : M B :=
  match m with
  | (t, inl e) => (t, inl e)
  | (t, inr a) => let '(t', r) := f a in ((t ++ t')%list, r)
  end.

Definition throw {A} (e : js_error) : M A := ([], inl e).

Definition emit (ev : event) : M unit := ([ev], inr tt).

(** [try { m } catch (error) { h error }] *)
Definition try_catch {A} (m : M A) (h : js_error -> M A) : M A :=
  match m with
  | (t, inl e) => let '(t', r) := h e in ((t ++ t')%list, r)
  | ok => ok
  end.

End JavaScript.

Notation "'let*' x := m 'in' k" := (bind m (fun x => k))
  (at level 10, x name, m at level 100, k at level 200,
   format "'[v' 'let*'  x  :=  m  'in' '/' k ']'").

Section Cli.

Context `{RT : Runtime}.

(** ** Property access that can throw *)

(** [v.k]: a TypeError on [undefined] and [null] (V8's wording). *)
Definition get (v : value) (k : jstring) : M value :=
  if nullish v
  then throw (TypeError ("Cannot read properties of " ++ ToString v
                           ++ " (reading '" ++ k ++ "')"))
  else ret (property v k).

(** [v?.k] *)
Definition opt_get (v : value) (k : jstring) : value :=
  if nullish v then JUndefined else property v k.

(** [v?.[i]] *)
Definition opt_element (v : value) (i : nat) : value :=
  if nullish v then JUndefined else element v i.

(** [v.k?.k'] *)
Definition get_then (v : value) (k k' : jstring) : M value :=
  let* x := get v k in ret (opt_get x k').

(** [a || b] where evaluating [b] may throw: [b] runs only on a falsy [a]. *)
Definition or_else (a : M value) (b : M value) : M value :=
  let* x := a in if truthy x then ret x else b.

(** [v.map(f)] on a value that is not nullish: only an array has [map]. *)
Fixpoint map_M {A B} (f : A -> M B) (xs : list A) : M (list B) :=
  match xs with
  | [] => ret []
  | x :: rest =>
      let* y := f x in
      let* ys := map_M f rest in
      ret (y :: ys)
  end.

Definition array_map {B} (name : jstring) (v : value) (f : value -> M B)
    : M (list B) :=
  match v with
  | JArr xs => map_M f xs
  | _ => throw (TypeError (name ++ ".map is not a function"))
  end.

(** [v?.join(sep)] *)
Definition opt_join (name : jstring) (v : value) (sep : jstring) : M value :=
  if nullish v then ret JUndefined
  else match v with
       | JArr xs => ret (JStr (array_join sep xs))
       | _ => throw (TypeError (name ++ "?.join is not a function"))
       end.

(** A command-line option that takes a value: [undefined] when absent. *)
Definition option_value (o : option jstring) : value :=
  match o with
  | Some s => JStr s
  | None => JUndefined
  end.

(** ** Helpers ([index.js], lines 29-82) *)

Definition chalk (st : style) (v : value) : value :=
  JStr (paint st (ToString v)).

Definition printSuccess (message : jstring) : M unit :=
  emit (ConsoleLog [JStr (paint Green check_mark ++ " " ++ message)]).

Definition printError (message : value) : M unit :=
  emit (ConsoleError [JStr (paint Red ballot_x ++ " " ++ ToString message)]).

(** [process.exit(code)], the last statement of every handler. *)
Definition process_exit (code : nat) : M unit := emit (ProcessExit code).

(** A table row is an object literal built by the caller: the list of its
    own properties. *)
Definition row := list (jstring * value).

(** The property names of [Object.prototype], which every plain object
    inherits. *)
Definition object_prototype_names : list jstring :=
  ["constructor"; "__defineGetter__"; "__defineSetter__"; "hasOwnProperty";
   "__lookupGetter__"; "__lookupSetter__"; "isPrototypeOf";
   "propertyIsEnumerable"; "toString"; "valueOf"; "__proto__";
   "toLocaleString"].

Definition inherited (k : jstring) : bool :=
  existsb (jeqb k) object_prototype_names.

Definition owns (r : row) (k : jstring) : bool :=
  existsb (fun p => jeqb k (fst p)) r.

(** What [row[k]] gives: an own property or, at a name the row does not own
    and [Object.prototype] has, the built-in of that name. *)
Inductive cell :=
| Data (v : value)
| Builtin (name : jstring).

(** [row[k]] *)
Definition row_read (r : row) (k : jstring) : cell :=
  if inherited k && negb (owns r k) then Builtin k else Data (assoc k r).

Record column := {
  key : jstring;
  label : jstring;
  format : option (cell -> row -> value)
}.

(** [s.padEnd(n)] *)
Definition padEnd (s : jstring) (n : nat) : jstring :=
  if Nat.leb n (length s) then s
  else s ++ repeat_string " " (n - length s).

(** [String(col.format ? col.format(row[col.key], row) : (row[col.key] ?? ''))] *)
Definition cell_text (col : column) (r : row) : jstring :=
  let x := row_read r (key col) in
  match format col with
  | Some f => ToString (f x r)
  | None =>
      match x with
      | Data v => ToString (coalesce v (JStr ""))
      | Builtin name => builtin_to_string name
      end
  end.

(** The numbers the renderer stores in [widths]: a length, or the NaN that
    [Math.min] makes of what is no number. *)
Inductive width := Len (n : nat) | NaN.

(** What [widths[k]] reads on the plain object [widths]: an own property,
    a built-in inherited from [Object.prototype], or [undefined]. *)
Inductive slot := Own (w : width) | Inherited | Absent.

Definition widths_get (widths : gmap jstring width) (k : jstring) : slot :=
  match widths !! k with
  | Some w => Own w
  | None => if inherited k then Inherited else Absent
  end.

(** [widths[k] = w].  The assignment makes or updates an own property,
    except at the name [__proto__] when it is not an own one: there the
    setter inherited from [Object.prototype] runs, and it ignores a
    number. *)
Definition widths_set (k : jstring) (w : width) (widths : gmap jstring width)
    : gmap jstring width :=
  match widths !! k with
  | Some _ => <[k := w]> widths
  | None => if jeqb k "__proto__" then widths else <[k := w]> widths
  end.

(** [n > x]: false when [x] is no number (it converts to NaN). *)
Definition exceeds (n : nat) (x : slot) : bool :=
  match x with
  | Own (Len w) => Nat.ltb w n
  | _ => false
  end.

(** [Math.min(x, 50)] *)
Definition min_50 (x : slot) : width :=
  match x with
  | Own (Len w) => Len (Nat.min w 50)
  | _ => NaN
  end.

(** ToLength, as [padEnd] applies it to its argument: 0 on what is no
    number. *)
Definition to_length (x : slot) : nat :=
  match x with
  | Own (Len w) => w
  | _ => 0
  end.

(** [s.substring(0, x)]: the whole string when [x] is [undefined], nothing
    when [x] converts to NaN. *)
Definition substring_to (s : jstring) (x : slot) : jstring :=
  match x with
  | Own (Len w) => take w s
  | Absent => s
  | _ => []
  end.

(** The body of [columns.forEach] that fills [widths]. *)
Definition measure_column (data : list row) (widths : gmap jstring width)
    (col : column) : gmap jstring width :=
  let widths := widths_set (key col) (Len (length (label col))) widths in
  let widths :=
    fold_left
      (fun ws r =>
         let val := cell_text col r in
         if exceeds (length val) (widths_get ws (key col))
         then widths_set (key col) (Len (length val)) ws
         else ws)
      data widths in
  widths_set (key col) (min_50 (widths_get widths (key col))) widths.

Definition table_widths (data : list row) (columns : list column)
    : gmap jstring width :=
  fold_left (measure_column data) columns ∅.

(** [col.label.padEnd(widths[col.key])] *)
Definition header_cell (widths : gmap jstring width) (col : column)
    : jstring :=
  padEnd (label col) (to_length (widths_get widths (key col))).

(** [val.substring(0, widths[col.key]).padEnd(widths[col.key])] *)
Definition data_cell (widths : gmap jstring width) (col : column) (r : row)
    : jstring :=
  let val := cell_text col r in
  padEnd (substring_to val (widths_get widths (key col)))
    (to_length (widths_get widths (key col))).

Definition header_line (widths : gmap jstring width) (columns : list column)
    : jstring :=
  join "  " (List.map (header_cell widths) columns).

Definition data_line (widths : gmap jstring width) (columns : list column)
    (r : row) : jstring :=
  join "  " (List.map (fun col => data_cell widths col r) columns).

Fixpoint emit_all (evs : list event) : M unit :=
  match evs with
  | [] => ret tt
  | ev :: rest => let* _ := emit ev in emit_all rest
  end.

(** [data = None] stands for a falsy [data] argument. *)
Definition printTable (data : option (list row)) (columns : list column)
    : M unit :=
  match data with
  | None | Some [] =>
      emit (ConsoleLog [chalk Yellow (JStr "No results found.")])
  | Some rows =>
      let widths := table_widths rows columns in
      let header := header_line widths columns in
      let* _ := emit (ConsoleLog [chalk Bold (chalk Cyan (JStr header))]) in
      let* _ := emit (ConsoleLog
                        [chalk Dim (JStr (repeat_string light_horizontal (length header)))]) in
      let* _ := emit_all
                  (List.map (fun r => ConsoleLog [JStr (data_line widths columns r)])
                     rows) in
      emit (ConsoleLog
              [chalk Dim
                 (JStr (newline
                          ++ number_to_string (number_of_nat (List.length rows))
                          ++ " result(s)"))])
  end.

Definition printJson (data : value) : M unit :=
  emit (ConsoleLog [JSON_stringify data 2]).

Definition withSpinner {A} (message : jstring) (fn : M A) : M A :=
  let* _ := emit (SpinnerStart message) in
  try_catch
    (let* result := fn in
     let* _ := emit SpinnerStop in
     ret result)
    (fun error =>
       let* _ := emit SpinnerStop in
       throw error).

(** ** Configuration store *)

(** Modelled from the spec: [config.js] (imported by both source files) is
    not among the sources.  The spec speaks of persisted configuration keys
    [baseUrl], [accessToken] and [sandboxId] that round-trip through set and
    show: the store is a finite map from key to value, [getConfig] reads a
    key ([undefined] when it was never set). *)
Definition getConfig (cfg : gmap jstring value) (k : jstring) : value :=
  default JUndefined (cfg !! k).

(** Modelled from the spec: [config.js] is not among the sources;
    [setConfig] persists the value under the key and touches no other key. *)
Definition setConfig (cfg : gmap jstring value) (k : jstring) (v : value)
    : gmap jstring value :=
  <[k := v]> cfg.

(** ** The world a command runs in *)

Record env := {
  (** the persisted configuration *)
  config : gmap jstring value;
  (** how the remote end settles each request *)
  server : request -> http_result;
  (** [Date.now()] *)
  clock : number
}.

(** ** [api.js] *)

Record client := {
  client_baseURL : value;
  client_headers : gmap jstring value
}.

Definition getClient (e : env) : client :=
  let baseUrl :=
    or_ (getConfig (config e) "baseUrl") (JStr "https://apis.nbg.gr/uk/v3_1") in
  let accessToken := getConfig (config e) "accessToken" in
  let sandboxId := getConfig (config e) "sandboxId" in
  let headers : gmap jstring value :=
    <["Content-Type" := JStr "application/json"]>
      (<["Accept" := JStr "application/json"]> ∅) in
  let headers :=
    if truthy accessToken
    then <["Authorization" := JStr ("Bearer " ++ ToString accessToken)]> headers
    else headers in
  let headers :=
    if truthy sandboxId
    then <["sandbox-id" := sandboxId]> headers
    else headers in
  {| client_baseURL := baseUrl; client_headers := headers |}.

(** One call on the axios instance, then [response.data]. *)
Definition send (e : env) (c : client) (m : http_method) (path : jstring)
    (query : option (gmap jstring value)) (payload : option value) : M value :=
  let r := {| method := m; baseURL := client_baseURL c; url := path;
              params := query; headers := client_headers c;
              body := payload |} in
  let* _ := emit (Http r) in
  match server e r with
  | Resolved data => ret data
  | Rejected error => throw error
  end.

Definition createConsent (e : env) (data : value) : M value :=
  let client := getClient e in
  send e client POST "/account-access-consents" None (Some data).

Definition getConsent (e : env) (consentId : jstring) : M value :=
  let client := getClient e in
  send e client GET ("/account-access-consents/" ++ consentId) None None.

Definition deleteConsent (e : env) (consentId : jstring) : M value :=
  let client := getClient e in
  send e client DELETE ("/account-access-consents/" ++ consentId) None None.

Definition getAccounts (e : env) (query : gmap jstring value) : M value :=
  let client := getClient e in
  send e client GET "/accounts" (Some query) None.

Definition getAccount (e : env) (accountId : jstring) : M value :=
  let client := getClient e in
  send e client GET ("/accounts/" ++ accountId) None None.

Definition getAccountBalances (e : env) (accountId : jstring) : M value :=
  let client := getClient e in
  send e client GET ("/accounts/" ++ accountId ++ "/balances") None None.

Definition getAllBalances (e : env) (query : gmap jstring value) : M value :=
  let client := getClient e in
  send e client GET "/balances" (Some query) None.

Definition getAccountTransactions (e : env) (accountId : jstring)
    (query : gmap jstring value) : M value :=
  let client := getClient e in
  send e client GET ("/accounts/" ++ accountId ++ "/transactions")
    (Some query) None.

Definition getAllTransactions (e : env) (query : gmap jstring value)
    : M value :=
  let client := getClient e in
  send e client GET "/transactions" (Some query) None.

Definition getAccountBeneficiaries (e : env) (accountId : jstring) : M value :=
  let client := getClient e in
  send e client GET ("/accounts/" ++ accountId ++ "/beneficiaries") None None.

Definition getAccountStandingOrders (e : env) (accountId : jstring)
    : M value :=
  let client := getClient e in
  send e client GET ("/accounts/" ++ accountId ++ "/standing-orders") None None.

Definition getAccountScheduledPayments (e : env) (accountId : jstring)
    : M value :=
  let client := getClient e in
  send e client GET ("/accounts/" ++ accountId ++ "/scheduled-payments")
    None None.

Definition getAccountStatements (e : env) (accountId : jstring)
    (query : gmap jstring value) : M value :=
  let client := getClient e in
  send e client GET ("/accounts/" ++ accountId ++ "/statements")
    (Some query) None.

Definition getAccountParty (e : env) (accountId : jstring) : M value :=
  let client := getClient e in
  send e client GET ("/accounts/" ++ accountId ++ "/party") None None.

Definition createSandbox (e : env) (data : value) : M value :=
  let client := getClient e in
  send e client POST "/sandbox" None (Some data).

(** ** Command actions ([index.js]) *)

(** [error.response?.data?.message] *)
Definition server_message (error : js_error) : value :=
  match err_response error with
  | None => JUndefined
  | Some data => opt_get data "message"
  end.

(** The [try { ... } catch (error) { printError(...); process.exit(1); }]
    that wraps the body of every API command. *)
Definition guarded (body : M unit) : M unit :=
  try_catch body
    (fun error =>
       let* _ := printError (or_ (server_message error)
                               (JStr (err_message error))) in
       process_exit 1).

(** A column literal [{ key, label }]. *)
Definition col (k l : jstring) : column :=
  {| key := k; label := l; format := None |}.

(** [console.log(label, v)] *)
Definition log_field (l : jstring) (v : value) : M unit :=
  emit (ConsoleLog [JStr l; v]).

(** [console.log(text)] *)
Definition log_text (v : value) : M unit := emit (ConsoleLog [v]).

(** *** config *)

Record config_options := {
  opt_baseUrl : option jstring;
  opt_accessToken : option jstring;
  opt_sandboxId : option jstring
}.

(** [config set]: the action returns the store it leaves behind. *)
Definition config_set (cfg : gmap jstring value) (options : config_options)
    : M (gmap jstring value) :=
  let baseUrl := option_value (opt_baseUrl options) in
  let accessToken := option_value (opt_accessToken options) in
  let sandboxId := option_value (opt_sandboxId options) in
  let* cfg :=
    if truthy baseUrl
    then let* _ := printSuccess "Base URL set" in
         ret (setConfig cfg "baseUrl" baseUrl)
    else ret cfg in
  let* cfg :=
    if truthy accessToken
    then let* _ := printSuccess "Access token set" in
         ret (setConfig cfg "accessToken" accessToken)
    else ret cfg in
  let* cfg :=
    if truthy sandboxId
    then let* _ := printSuccess "Sandbox ID set" in
         ret (setConfig cfg "sandboxId" sandboxId)
    else ret cfg in
  let* _ :=
    if negb (truthy baseUrl) && negb (truthy accessToken)
       && negb (truthy sandboxId)
    then printError
           (JStr "No options provided. Use --base-url, --access-token, or --sandbox-id")
    else ret tt in
  ret cfg.

(** [v === s] for a string literal [s] *)
Definition is_string (v : value) (s : jstring) : bool :=
  match v with
  | JStr t => jeqb t s
  | _ => false
  end.

Definition config_show (cfg : gmap jstring value) : M unit :=
  let baseUrl :=
    or_ (getConfig cfg "baseUrl") (JStr "https://apis.nbg.gr/uk/v3_1 (default)") in
  let accessToken := or_ (getConfig cfg "accessToken") (JStr "Not set") in
  let sandboxId := or_ (getConfig cfg "sandboxId") (JStr "Not set") in
  let* _ := log_text (chalk Bold (JStr (newline ++ "NBG CLI Configuration" ++ newline))) in
  let* _ := log_field "Base URL:      " (chalk Cyan baseUrl) in
  let* _ := log_field "Access Token:  "
              (if is_string accessToken "Not set"
               then chalk Yellow accessToken
               else chalk Green (JStr "Set")) in
  let* _ := log_field "Sandbox ID:    "
              (if is_string sandboxId "Not set"
               then chalk Yellow sandboxId
               else chalk Cyan sandboxId) in
  log_text (JStr "").

(** *** consents *)

Record consent_options := {
  (** [None]: the option was not given and commander supplies its default *)
  opt_permissions : option (list jstring);
  opt_expiration : option jstring;
  consent_json : bool
}.

Definition default_permissions : list jstring :=
  ["ReadAccountsBasic"; "ReadBalances"].

Definition consents_create (e : env) (options : consent_options) : M unit :=
  guarded
    (let permissions :=
       JArr (List.map JStr (default default_permissions (opt_permissions options))) in
     let expiration := option_value (opt_expiration options) in
     let payload_data :=
       if truthy expiration
       then [("Permissions", permissions); ("ExpirationDateTime", expiration)]
       else [("Permissions", permissions)] in
     let payload := JObj [("Data", JObj payload_data)] in
     let* data := withSpinner "Creating consent..." (createConsent e payload) in
     if consent_json options then printJson data
     else
       let* consent := or_else (get data "Data") (ret (JObj [])) in
       let* _ := log_text (chalk Bold (JStr (newline ++ "Consent Created" ++ newline))) in
       let* id := or_else (get consent "ConsentId") (ret (JStr "N/A")) in
       let* _ := log_field "Consent ID:    " (chalk Cyan id) in
       let* status := or_else (get consent "Status") (ret (JStr "N/A")) in
       let* _ := log_field "Status:        " (chalk Green status) in
       let* permissions :=
         or_else (let* p := get consent "Permissions" in
                  opt_join "consent.Permissions" p ", ")
           (ret (JStr "N/A")) in
       let* _ := log_field "Permissions:   " permissions in
       let* _ := log_text (JStr "") in
       printSuccess "Consent created successfully").

Definition consents_get (e : env) (consentId : jstring) (json : bool)
    : M unit :=
  guarded
    (let* data := withSpinner ("Fetching consent " ++ consentId ++ "...")
                    (getConsent e consentId) in
     if json then printJson data
     else
       let* consent := or_else (get data "Data") (ret (JObj [])) in
       let* _ := log_text (chalk Bold (JStr (newline ++ "Consent Details" ++ newline))) in
       let* id := or_else (get consent "ConsentId") (ret (JStr "N/A")) in
       let* _ := log_field "Consent ID:    " (chalk Cyan id) in
       let* status := or_else (get consent "Status") (ret (JStr "N/A")) in
       let* _ := log_field "Status:        " (chalk Green status) in
       let* permissions :=
         or_else (let* p := get consent "Permissions" in
                  opt_join "consent.Permissions" p ", ")
           (ret (JStr "N/A")) in
       let* _ := log_field "Permissions:   " permissions in
       let* created := or_else (get consent "CreationDateTime") (ret (JStr "N/A")) in
       let* _ := log_field "Created:       " created in
       let* expires := or_else (get consent "ExpirationDateTime") (ret (JStr "N/A")) in
       let* _ := log_field "Expires:       " expires in
       log_text (JStr "")).

Definition consents_delete (e : env) (consentId : jstring) (json : bool)
    : M unit :=
  guarded
    (let* data := withSpinner ("Deleting consent " ++ consentId ++ "...")
                    (deleteConsent e consentId) in
     if json then printJson data
     else printSuccess ("Consent " ++ consentId ++ " deleted successfully")).

(** *** accounts *)

(** The arrow function mapped over the items by [accounts list]. *)
Definition account_row (a : value) : M row :=
  let* id := get a "AccountId" in
  let* name :=
    or_else
      (or_else (get a "Nickname")
         (let* acc := get a "Account" in
          ret (opt_get (opt_element acc 0) "Name")))
      (ret (JStr "N/A")) in
  let* type := or_else (get a "AccountType") (ret (JStr "N/A")) in
  let* subtype := or_else (get a "AccountSubType") (ret (JStr "N/A")) in
  ret [("id", id); ("name", name); ("type", type);
       ("subtype", subtype)].

Definition accounts_list (e : env) (json : bool) : M unit :=
  guarded
    (let* data := withSpinner "Fetching accounts..." (getAccounts e ∅) in
     if json then printJson data
     else
       let* accounts :=
         or_else (get_then data "Data" "Account")
           (ret (JArr [])) in
       let* tableData :=
         array_map "accounts" accounts account_row in
       printTable (Some tableData)
         [col "id" "Account ID"; col "name" "Name"; col "type" "Type";
          col "subtype" "Subtype"]).

Definition accounts_get (e : env) (accountId : jstring) (json : bool)
    : M unit :=
  guarded
    (let* data := withSpinner ("Fetching account " ++ accountId ++ "...")
                    (getAccount e accountId) in
     if json then printJson data
     else
       let* account :=
         or_else (let* d := get data "Data" in
                  ret (opt_element (opt_get d "Account") 0))
           (ret (JObj [])) in
       let* _ := log_text (chalk Bold (JStr (newline ++ "Account Details" ++ newline))) in
       let* id := or_else (get account "AccountId") (ret (JStr "N/A")) in
       let* _ := log_field "Account ID:    " (chalk Cyan id) in
       let* nickname := or_else (get account "Nickname") (ret (JStr "N/A")) in
       let* _ := log_field "Nickname:      " nickname in
       let* type := or_else (get account "AccountType") (ret (JStr "N/A")) in
       let* _ := log_field "Type:          " type in
       let* subtype := or_else (get account "AccountSubType") (ret (JStr "N/A")) in
       let* _ := log_field "Subtype:       " subtype in
       let* currency := or_else (get account "Currency") (ret (JStr "N/A")) in
       let* _ := log_field "Currency:      " currency in
       log_text (JStr "")).

(** *** balances *)

(** The arrow function mapped over the items by [balances get]. *)
Definition balance_row (b : value) : M row :=
  let* type := get b "Type" in
  let* amount := get_then b "Amount" "Amount" in
  let* currency := get_then b "Amount" "Currency" in
  let* creditDebit := get b "CreditDebitIndicator" in
  let* datetime := get b "DateTime" in
  ret [("type", type); ("amount", amount);
       ("currency", currency);
       ("creditDebit", creditDebit); ("datetime", datetime)].

Definition balances_get (e : env) (accountId : jstring) (json : bool)
    : M unit :=
  guarded
    (let* data := withSpinner ("Fetching balances for account " ++ accountId ++ "...")
                    (getAccountBalances e accountId) in
     if json then printJson data
     else
       let* balances :=
         or_else (get_then data "Data" "Balance")
           (ret (JArr [])) in
       let* tableData :=
         array_map "balances" balances balance_row in
       printTable (Some tableData)
         [col "type" "Type"; col "amount" "Amount"; col "currency" "Currency";
          col "creditDebit" "Credit/Debit"; col "datetime" "DateTime"]).

(** The arrow function mapped over the items by [balances list]. *)
Definition all_balances_row (b : value) : M row :=
  let* accountId := get b "AccountId" in
  let* type := get b "Type" in
  let* amount := get_then b "Amount" "Amount" in
  let* currency := get_then b "Amount" "Currency" in
  let* creditDebit := get b "CreditDebitIndicator" in
  ret [("accountId", accountId); ("type", type);
       ("amount", amount);
       ("currency", currency);
       ("creditDebit", creditDebit)].

Definition balances_list (e : env) (json : bool) : M unit :=
  guarded
    (let* data := withSpinner "Fetching all balances..." (getAllBalances e ∅) in
     if json then printJson data
     else
       let* balances :=
         or_else (get_then data "Data" "Balance")
           (ret (JArr [])) in
       let* tableData :=
         array_map "balances" balances all_balances_row in
       printTable (Some tableData)
         [col "accountId" "Account ID"; col "type" "Type";
          col "amount" "Amount"; col "currency" "Currency";
          col "creditDebit" "Credit/Debit"]).

(** *** transactions *)

Record range_options := {
  opt_from : option jstring;
  opt_to : option jstring;
  range_json : bool
}.

(** [const params = {}; if (options.from) params[from_key] = options.from;
    if (options.to) params[to_key] = options.to;] *)
Definition range_params (from_key to_key : jstring) (options : range_options)
    : gmap jstring value :=
  let params : gmap jstring value := ∅ in
  let params :=
    if truthy (option_value (opt_from options))
    then <[from_key := option_value (opt_from options)]> params
    else params in
  let params :=
    if truthy (option_value (opt_to options))
    then <[to_key := option_value (opt_to options)]> params
    else params in
  params.

(** The arrow function mapped over the items by [transactions get]. *)
Definition transaction_row (t : value) : M row :=
  let* id := get t "TransactionId" in
  let* amount := get_then t "Amount" "Amount" in
  let* currency := get_then t "Amount" "Currency" in
  let* creditDebit := get t "CreditDebitIndicator" in
  let* status := get t "Status" in
  let* bookingDate := get t "BookingDateTime" in
  let* description :=
    or_else (get t "TransactionInformation") (ret (JStr "N/A")) in
  ret [("id", id); ("amount", amount);
       ("currency", currency);
       ("creditDebit", creditDebit); ("status", status);
       ("bookingDate", bookingDate);
       ("description", description)].

Definition transactions_get (e : env) (accountId : jstring)
    (options : range_options) : M unit :=
  guarded
    (let params := range_params "fromBookingDateTime" "toBookingDateTime" options in
     let* data := withSpinner ("Fetching transactions for account " ++ accountId ++ "...")
                    (getAccountTransactions e accountId params) in
     if range_json options then printJson data
     else
       let* transactions :=
         or_else (get_then data "Data" "Transaction")
           (ret (JArr [])) in
       let* tableData :=
         array_map "transactions" transactions transaction_row in
       printTable (Some tableData)
         [col "id" "Transaction ID"; col "amount" "Amount";
          col "currency" "Currency"; col "creditDebit" "Credit/Debit";
          col "bookingDate" "Booking Date"; col "description" "Description"]).

(** The arrow function mapped over the items by [transactions list]. *)
Definition all_transactions_row (t : value) : M row :=
  let* accountId := get t "AccountId" in
  let* id := get t "TransactionId" in
  let* amount := get_then t "Amount" "Amount" in
  let* currency := get_then t "Amount" "Currency" in
  let* creditDebit := get t "CreditDebitIndicator" in
  let* bookingDate := get t "BookingDateTime" in
  ret [("accountId", accountId); ("id", id);
       ("amount", amount);
       ("currency", currency);
       ("creditDebit", creditDebit);
       ("bookingDate", bookingDate)].

Definition transactions_list (e : env) (options : range_options) : M unit :=
  guarded
    (let params := range_params "fromBookingDateTime" "toBookingDateTime" options in
     let* data := withSpinner "Fetching all transactions..."
                    (getAllTransactions e params) in
     if range_json options then printJson data
     else
       let* transactions :=
         or_else (get_then data "Data" "Transaction")
           (ret (JArr [])) in
       let* tableData :=
         array_map "transactions" transactions all_transactions_row in
       printTable (Some tableData)
         [col "accountId" "Account ID"; col "id" "Transaction ID";
          col "amount" "Amount"; col "currency" "Currency";
          col "creditDebit" "Credit/Debit"; col "bookingDate" "Booking Date"]).

(** *** beneficiaries, standing orders, scheduled payments *)

(** The arrow function mapped over the items by [beneficiaries get]. *)
Definition beneficiary_row (b : value) : M row :=
  let* id := get b "BeneficiaryId" in
  let* name :=
    or_else (get_then b "CreditorAccount" "Name")
      (ret (JStr "N/A")) in
  let* accountId :=
    or_else (get_then b "CreditorAccount" "Identification")
      (ret (JStr "N/A")) in
  let* reference := or_else (get b "Reference") (ret (JStr "N/A")) in
  ret [("id", id); ("name", name); ("accountId", accountId);
       ("reference", reference)].

Definition beneficiaries_get (e : env) (accountId : jstring) (json : bool)
    : M unit :=
  guarded
    (let* data := withSpinner ("Fetching beneficiaries for account " ++ accountId ++ "...")
                    (getAccountBeneficiaries e accountId) in
     if json then printJson data
     else
       let* beneficiaries :=
         or_else (get_then data "Data" "Beneficiary")
           (ret (JArr [])) in
       let* tableData :=
         array_map "beneficiaries" beneficiaries beneficiary_row in
       printTable (Some tableData)
         [col "id" "Beneficiary ID"; col "name" "Name";
          col "accountId" "Account ID"; col "reference" "Reference"]).

(** The arrow function mapped over the items by [standing orders get]. *)
Definition standing_order_row (o : value) : M row :=
  let* id := get o "StandingOrderId" in
  let* frequency := get o "Frequency" in
  let* amount :=
    or_else (get_then o "FirstPaymentAmount" "Amount")
      (get_then o "FinalPaymentAmount" "Amount") in
  let* currency :=
    or_else (get_then o "FirstPaymentAmount" "Currency")
      (get_then o "FinalPaymentAmount" "Currency") in
  let* nextPayment := get o "NextPaymentDateTime" in
  let* reference := or_else (get o "Reference") (ret (JStr "N/A")) in
  ret [("id", id); ("frequency", frequency); ("amount", amount);
       ("currency", currency); ("nextPayment", nextPayment);
       ("reference", reference)].

Definition standing_orders_get (e : env) (accountId : jstring) (json : bool)
    : M unit :=
  guarded
    (let* data := withSpinner ("Fetching standing orders for account " ++ accountId ++ "...")
                    (getAccountStandingOrders e accountId) in
     if json then printJson data
     else
       let* orders :=
         or_else (get_then data "Data" "StandingOrder")
           (ret (JArr [])) in
       let* tableData :=
         array_map "orders" orders standing_order_row in
       printTable (Some tableData)
         [col "id" "Standing Order ID"; col "frequency" "Frequency";
          col "amount" "Amount"; col "currency" "Currency";
          col "nextPayment" "Next Payment"; col "reference" "Reference"]).

(** The arrow function mapped over the items by [scheduled payments get]. *)
Definition scheduled_payment_row (p : value) : M row :=
  let* id := get p "ScheduledPaymentId" in
  let* scheduledDate := get p "ScheduledPaymentDateTime" in
  let* amount := get_then p "InstructedAmount" "Amount" in
  let* currency := get_then p "InstructedAmount" "Currency" in
  let* reference := or_else (get p "Reference") (ret (JStr "N/A")) in
  ret [("id", id); ("scheduledDate", scheduledDate);
       ("amount", amount);
       ("currency", currency);
       ("reference", reference)].

Definition scheduled_payments_get (e : env) (accountId : jstring)
    (json : bool) : M unit :=
  guarded
    (let* data := withSpinner ("Fetching scheduled payments for account " ++ accountId ++ "...")
                    (getAccountScheduledPayments e accountId) in
     if json then printJson data
     else
       let* payments :=
         or_else (get_then data "Data" "ScheduledPayment")
           (ret (JArr [])) in
       let* tableData :=
         array_map "payments" payments scheduled_payment_row in
       printTable (Some tableData)
         [col "id" "Payment ID"; col "scheduledDate" "Scheduled Date";
          col "amount" "Amount"; col "currency" "Currency";
          col "reference" "Reference"]).

(** *** statements, party, sandbox *)

(** The arrow function mapped over the items by [statements get]. *)
Definition statement_row (s : value) : M row :=
  let* id := get s "StatementId" in
  let* type := get s "Type" in
  let* startDate := get s "StartDateTime" in
  let* endDate := get s "EndDateTime" in
  let* description :=
    or_else (let* d := get s "StatementDescription" in
             ret (opt_element d 0))
      (ret (JStr "N/A")) in
  ret [("id", id); ("type", type); ("startDate", startDate);
       ("endDate", endDate); ("description", description)].

Definition statements_get (e : env) (accountId : jstring)
    (options : range_options) : M unit :=
  guarded
    (let params := range_params "fromStatementDateTime" "toStatementDateTime" options in
     let* data := withSpinner ("Fetching statements for account " ++ accountId ++ "...")
                    (getAccountStatements e accountId params) in
     if range_json options then printJson data
     else
       let* statements :=
         or_else (get_then data "Data" "Statement")
           (ret (JArr [])) in
       let* tableData :=
         array_map "statements" statements statement_row in
       printTable (Some tableData)
         [col "id" "Statement ID"; col "type" "Type";
          col "startDate" "Start Date"; col "endDate" "End Date";
          col "description" "Description"]).

Definition party_get (e : env) (accountId : jstring) (json : bool) : M unit :=
  guarded
    (let* data := withSpinner ("Fetching party info for account " ++ accountId ++ "...")
                    (getAccountParty e accountId) in
     if json then printJson data
     else
       let* party :=
         or_else (get_then data "Data" "Party")
           (ret (JObj [])) in
       let* _ := log_text (chalk Bold (JStr (newline ++ "Party Information" ++ newline))) in
       let* id := or_else (get party "PartyId") (ret (JStr "N/A")) in
       let* _ := log_field "Party ID:      " (chalk Cyan id) in
       let* name := or_else (get party "Name") (ret (JStr "N/A")) in
       let* _ := log_field "Name:          " name in
       let* type := or_else (get party "PartyType") (ret (JStr "N/A")) in
       let* _ := log_field "Type:          " type in
       let* email := or_else (get party "EmailAddress") (ret (JStr "N/A")) in
       let* _ := log_field "Email:         " email in
       let* phone := or_else (get party "Phone") (ret (JStr "N/A")) in
       let* _ := log_field "Phone:         " phone in
       log_text (JStr "")).

Definition sandbox_create (e : env) (json : bool) : M unit :=
  guarded
    (let payload :=
       JObj [("Data",
              JObj [("sandboxId",
                     JStr ("sandbox-" ++ number_to_string (clock e)))])] in
     let* data := withSpinner "Creating sandbox..." (createSandbox e payload) in
     if json then printJson data
     else
       let* _ := log_text (chalk Bold (JStr (newline ++ "Sandbox Created" ++ newline))) in
       let* id :=
         or_else (get_then data "Data" "sandboxId")
           (ret (JStr "N/A")) in
       let* _ := log_field "Sandbox ID:    " (chalk Cyan id) in
       let* _ := log_text (JStr "") in
       printSuccess
         ("Sandbox created successfully. Use " ++ dquote
            ++ "nbg config set --sandbox-id <id>" ++ dquote
            ++ " to configure it.")).

(** ** The commands that call the API *)

Inductive command :=
| ConsentsCreate (options : consent_options)
| ConsentsGet (consentId : jstring) (json : bool)
| ConsentsDelete (consentId : jstring) (json : bool)
| AccountsList (json : bool)
| AccountsGet (accountId : jstring) (json : bool)
| BalancesGet (accountId : jstring) (json : bool)
| BalancesList (json : bool)
| TransactionsGet (accountId : jstring) (options : range_options)
| TransactionsList (options : range_options)
| BeneficiariesGet (accountId : jstring) (json : bool)
| StandingOrdersGet (accountId : jstring) (json : bool)
| ScheduledPaymentsGet (accountId : jstring) (json : bool)
| StatementsGet (accountId : jstring) (options : range_options)
| PartyGet (accountId : jstring) (json : bool)
| SandboxCreate (json : bool).

(** commander's dispatch of a parsed command line to its action *)
Definition action (e : env) (c : command) : M unit :=
  match c with
  | ConsentsCreate options => consents_create e options
  | ConsentsGet consentId json => consents_get e consentId json
  | ConsentsDelete consentId json => consents_delete e consentId json
  | AccountsList json => accounts_list e json
  | AccountsGet accountId json => accounts_get e accountId json
  | BalancesGet accountId json => balances_get e accountId json
  | BalancesList json => balances_list e json
  | TransactionsGet accountId options => transactions_get e accountId options
  | TransactionsList options => transactions_list e options
  | BeneficiariesGet accountId json => beneficiaries_get e accountId json
  | StandingOrdersGet accountId json => standing_orders_get e accountId json
  | ScheduledPaymentsGet accountId json =>
      scheduled_payments_get e accountId json
  | StatementsGet accountId options => statements_get e accountId options
  | PartyGet accountId json => party_get e accountId json
  | SandboxCreate json => sandbox_create e json
  end.

(** ** Observations on a run *)

Definition trace {A} (m : M A) : list event := fst m.

Definition requests {A} (m : M A) : list request :=
  omap (fun ev => match ev with Http r => Some r | _ => None end) (trace m).

(** the calls of [console.log], in order *)
Definition stdout {A} (m : M A) : list (list value) :=
  omap (fun ev => match ev with ConsoleLog args => Some args | _ => None end)
    (trace m).

(** the calls of [console.error], in order *)
Definition stderr {A} (m : M A) : list (list value) :=
  omap (fun ev => match ev with ConsoleError args => Some args | _ => None end)
    (trace m).

(** The status the process ends with: the argument of [process.exit] when
    it was called, 1 on an uncaught exception, 0 otherwise. *)
Definition exit_code {A} (m : M A) : nat :=
  match omap (fun ev => match ev with ProcessExit c => Some c | _ => None end)
          (trace m), snd m with
  | c :: _, _ => c
  | [], inl _ => 1
  | [], inr _ => 0
  end.

(** The value was thrown and nothing caught it. *)
Definition throws {A} (m : M A) : bool :=
  match snd m with
  | inl _ => true
  | inr _ => false
  end.

End Cli.

(** ** A concrete host

    Integers as numbers, a terminal without colour support, where [chalk]
    returns its argument unchanged, and V8's text for the built-ins.  The
    examples run on it. *)
Definition plain_node : Runtime := {|
  number := Z;
  number_to_string := fun n => code_units (pretty n);
  number_truthy := fun n => negb (Z.eqb n 0);
  number_finite := fun _ => true;
  number_of_nat := Z.of_nat;
  paint := fun _ s => s;
  builtin_to_string := fun name =>
    if jeqb name "__proto__" then "[object Object]"
    else "function "
         ++ (if jeqb name "constructor" then "Object" else name)
         ++ "() { [native code] }"
|}.

(** ** Sample worlds on that host *)

Section Worlds.

#[local] Existing Instance plain_node.

(** A remote end that answers every request with the same body. *)
Definition answering (data : value) : request -> http_result :=
  fun _ => Resolved data.

(** A remote end that rejects every request with the same error. *)
Definition refusing (error : js_error) : request -> http_result :=
  fun _ => Rejected error.

Definition world (cfg : gmap jstring value) (remote : request -> http_result)
    : env :=
  {| config := cfg; server := remote; clock := 1767225600000%Z |}.

(** A 401 answer whose body carries a message. *)
Definition unauthorized : js_error :=
  {| err_message := "Request failed with status code 401";
     err_response := Some (JObj [("message", JStr "Unauthorized")]) |}.

(** A store with the three keys set. *)
Definition sandbox_config : gmap jstring value :=
  <["sandboxId" := JStr "sb-1"]>
    (<["accessToken" := JStr "tok-123"]>
       (<["baseUrl" := JStr "https://sandbox.example/uk/v3_1"]> ∅)).

(** One account without nickname, type or subtype. *)
Definition one_account : value :=
  JObj [("Data", JObj [("Account", JArr [JObj [("AccountId", JStr "A1")]])])].

(** One balance without amount, indicator or date. *)
Definition bare_balance : value := JObj [("Type", JStr "ClosingAvailable")].

Definition one_balance : value :=
  JObj [("Data", JObj [("Balance", JArr [bare_balance])])].

(** A well-formed answer without the item list. *)
Definition no_items : value := JObj [("Data", JObj [])].

Definition from_january : range_options :=
  {| opt_from := Some "2026-01-01T00:00:00Z"; opt_to := None;
     range_json := false |}.

(** [--from] given with an empty value. *)
Definition from_empty : range_options :=
  {| opt_from := Some ""; opt_to := None; range_json := false |}.

Definition accounts_columns : list column :=
  [col "id" "Account ID"; col "name" "Name"; col "type" "Type";
   col "subtype" "Subtype"].

Definition accounts_rows : list row :=
  [[("id", JStr "A1"); ("name", JStr "N/A"); ("type", JStr "Personal");
    ("subtype", JStr "CurrentAccount")]].

Definition token_only : config_options :=
  {| opt_baseUrl := None; opt_accessToken := Some "tok-123";
     opt_sandboxId := None |}.

(** [--base-url] given with an empty value, nothing else. *)
Definition empty_base_url : config_options :=
  {| opt_baseUrl := Some ""; opt_accessToken := None; opt_sandboxId := None |}.

(** [consents create --expiration 2026-12-31T23:59:59Z]. *)
Definition consent_with_expiry : consent_options :=
  {| opt_permissions := None; opt_expiration := Some "2026-12-31T23:59:59Z";
     consent_json := false |}.

Definition first_account : value :=
  JObj [("AccountId", JStr "A1"); ("Nickname", JStr "Main")].

Definition second_account : value := JObj [("AccountId", JStr "A2")].

Definition two_accounts : value :=
  JObj [("Data", JObj [("Account", JArr [first_account; second_account])])].

(** A list with a [null] among the accounts. *)
Definition accounts_with_null : value :=
  JObj [("Data", JObj [("Account", JArr [first_account; JNull])])].

(** [Account] is a string instead of a list. *)
Definition accounts_not_a_list : value :=
  JObj [("Data", JObj [("Account", JStr "none")])].

Definition all_three : config_options :=
  {| opt_baseUrl := Some "https://sandbox.example/uk/v3_1";
     opt_accessToken := Some "tok-123"; opt_sandboxId := Some "sb-1" |}.

(** A column list with the key [__proto__]. *)
Definition prototype_columns : list column :=
  [col "__proto__" "P"; col "id" "ID"].

End Worlds.

(** ** The stated interface, as the specification words it *)

Section Stated.

Context `{RT : Runtime}.

(** The HTTP verb stated for each command. *)
Definition stated_method (c : command) : http_method :=
  match c with
  | ConsentsCreate _ | SandboxCreate _ => POST
  | ConsentsDelete _ _ => DELETE
  | _ => GET
  end.

(** The path stated for each command. *)
Definition stated_path (c : command) : jstring :=
  match c with
  | ConsentsCreate _ => "/account-access-consents"
  | ConsentsGet consentId _ | ConsentsDelete consentId _ =>
      "/account-access-consents/" ++ consentId
  | AccountsList _ => "/accounts"
  | AccountsGet accountId _ => "/accounts/" ++ accountId
  | BalancesGet accountId _ => "/accounts/" ++ accountId ++ "/balances"
  | BalancesList _ => "/balances"
  | TransactionsGet accountId _ => "/accounts/" ++ accountId ++ "/transactions"
  | TransactionsList _ => "/transactions"
  | BeneficiariesGet accountId _ => "/accounts/" ++ accountId ++ "/beneficiaries"
  | StandingOrdersGet accountId _ =>
      "/accounts/" ++ accountId ++ "/standing-orders"
  | ScheduledPaymentsGet accountId _ =>
      "/accounts/" ++ accountId ++ "/scheduled-payments"
  | StatementsGet accountId _ => "/accounts/" ++ accountId ++ "/statements"
  | PartyGet accountId _ => "/accounts/" ++ accountId ++ "/party"
  | SandboxCreate _ => "/sandbox"
  end.

(** Whether the command line carried [--json]. *)
Definition json_flag (c : command) : bool :=
  match c with
  | ConsentsCreate options => consent_json options
  | TransactionsGet _ options | TransactionsList options
  | StatementsGet _ options => range_json options
  | ConsentsGet _ json | ConsentsDelete _ json | AccountsList json
  | AccountsGet _ json | BalancesGet _ json | BalancesList json
  | BeneficiariesGet _ json | StandingOrdersGet _ json
  | ScheduledPaymentsGet _ json | PartyGet _ json | SandboxCreate json => json
  end.

(** A JSON document: what a response body is once parsed.  It holds no
    [undefined], and its numbers are finite. *)
Fixpoint is_json (v : value) : bool :=
  match v with
  | JUndefined => false
  | JNull | JBool _ | JStr _ => true
  | JNum n => number_finite n
  | JArr xs => forallb is_json xs
  | JObj props =>
      (fix all (ps : list (jstring * value)) : bool :=
         match ps with
         | [] => true
         | (_, x) :: rest => is_json x && all rest
         end) props
  end.

(** The left margin [depth] levels deep: two spaces per level. *)
Definition margin (depth : nat) : jstring := repeat_string "  " depth.

(** [pretty_json depth v text]: [text] is the document [v] pretty-printed
    with an indentation of two spaces, its brackets standing at [depth].
    A scalar is its JSON token.  An empty array or object is [[]] or [{}].
    Otherwise every element, and every member as its quoted key, a colon,
    a space and its value, stands on a line of its own one level deeper,
    in the order of the document; the lines are separated by a comma and
    the closing bracket stands on its own line at [depth]. *)
Inductive pretty_json : nat -> value -> jstring -> Prop :=
| pretty_null depth : pretty_json depth JNull "null"
| pretty_true depth : pretty_json depth (JBool true) "true"
| pretty_false depth : pretty_json depth (JBool false) "false"
| pretty_number depth n :
    number_finite n = true ->
    pretty_json depth (JNum n) (number_to_string n)
| pretty_string depth s : pretty_json depth (JStr s) (quote s)
| pretty_empty_array depth : pretty_json depth (JArr []) "[]"
| pretty_array depth x xs lines :
    Forall2
      (fun x line =>
         exists text,
           pretty_json (S depth) x text /\ line = margin (S depth) ++ text)
      (x :: xs) lines ->
    pretty_json depth (JArr (x :: xs))
      ("[" ++ newline ++ join ("," ++ newline) lines ++ newline
         ++ margin depth ++ "]")
| pretty_empty_object depth : pretty_json depth (JObj []) "{}"
| pretty_object depth p props lines :
    Forall2
      (fun (member : jstring * value) line =>
         exists text,
           pretty_json (S depth) (snd member) text
           /\ line = margin (S depth) ++ quote (fst member) ++ ": " ++ text)
      (p :: props) lines ->
    pretty_json depth (JObj (p :: props))
      ("{" ++ newline ++ join ("," ++ newline) lines ++ newline
         ++ margin depth ++ "}").

(** The message a failed call is reported with: the server's when the
    response carries one, the local one otherwise. *)
Definition reported_message (error : js_error) : jstring :=
  match err_response error with
  | Some data =>
      if truthy (opt_get data "message")
      then ToString (opt_get data "message")
      else err_message error
  | None => err_message error
  end.

(** A run with the events [t] in front. *)
Definition prefix {A} (t : list event) (m : M A) : M A :=
  ((t ++ fst m)%list, snd m).

(** The request a command hands to axios, given verb, path, query and
    body: the base URL and the headers come from [getClient]. *)
Definition issued (e : env) (m : http_method) (path : jstring)
    (query : option (gmap jstring value)) (payload : option value) : request :=
  {| method := m; baseURL := client_baseURL (getClient e); url := path;
     params := query; headers := client_headers (getClient e);
     body := payload |}.

(** The query object each action passes to its api function. *)
Definition query_of (c : command) : option (gmap jstring value) :=
  match c with
  | AccountsList _ | BalancesList _ => Some ∅
  | TransactionsGet _ options | TransactionsList options =>
      Some (range_params "fromBookingDateTime" "toBookingDateTime" options)
  | StatementsGet _ options =>
      Some (range_params "fromStatementDateTime" "toStatementDateTime" options)
  | _ => None
  end.

(** The request body each action builds. *)
Definition payload_of (e : env) (c : command) : option value :=
  match c with
  | ConsentsCreate options =>
      let permissions :=
        JArr (List.map JStr
                (default default_permissions (opt_permissions options))) in
      let expiration := option_value (opt_expiration options) in
      Some (JObj [("Data",
                   JObj (if truthy expiration
                         then [("Permissions", permissions);
                               ("ExpirationDateTime", expiration)]
                         else [("Permissions", permissions)]))])
  | SandboxCreate _ =>
      Some (JObj [("Data",
                   JObj [("sandboxId",
                          JStr ("sandbox-" ++ number_to_string (clock e)))])])
  | _ => None
  end.

Definition request_of (e : env) (c : command) : request :=
  issued e (stated_method c) (stated_path c) (query_of c) (payload_of e c).

(** A key is configured when the store holds a value for it that
    JavaScript treats as true; [config set] never stores another one. *)
Definition configured (e : env) (k : jstring) (v : value) : Prop :=
  config e !! k = Some v /\ truthy v = true.

(** The commands that take [--from] and [--to], with the names of the two
    query parameters stated for them. *)
Definition range_of (c : command) : option (jstring * jstring * range_options) :=
  match c with
  | TransactionsGet _ options | TransactionsList options =>
      Some ("fromBookingDateTime", "toBookingDateTime", options)
  | StatementsGet _ options =>
      Some ("fromStatementDateTime", "toStatementDateTime", options)
  | _ => None
  end.

(** The width stated for a column: the longer of its label and its longest
    formatted cell, capped at 50. *)
Definition stated_width (data : list row) (c : column) : nat :=
  Nat.min
    (Nat.max (length (label c))
       (max_list_with (fun r => length (cell_text c r)) data))
    50.

(** What the renderer keeps in [widths]: lengths of at most 50, and never
    an own property [__proto__]. *)
Definition measured (ws : gmap jstring width) : Prop :=
  ws !! ("__proto__" : jstring) = None
  /\ forall k w, ws !! k = Some w -> exists n, w = Len n /\ n <= 50.

(** The commands that render a table, with the name of the item list
    they read under [Data]. *)
Definition table_items (c : command) : option jstring :=
  match c with
  | AccountsList _ => Some "Account"
  | BalancesGet _ _ | BalancesList _ => Some "Balance"
  | TransactionsGet _ _ | TransactionsList _ => Some "Transaction"
  | BeneficiariesGet _ _ => Some "Beneficiary"
  | StandingOrdersGet _ _ => Some "StandingOrder"
  | ScheduledPaymentsGet _ _ => Some "ScheduledPayment"
  | StatementsGet _ _ => Some "Statement"
  | _ => None
  end.

(** The object a detail view reads its fields from. *)
Definition consent_of (data : value) : value :=
  or_ (property data "Data") (JObj []).

Definition account_of (data : value) : value :=
  or_ (opt_element (opt_get (property data "Data") "Account") 0) (JObj []).

Definition party_of (data : value) : value :=
  or_ (opt_get (property data "Data") "Party") (JObj []).

(** A value as a detail line shows it: through [chalk] or as it is. *)
Definition shown (st : option style) (v : value) : value :=
  match st with
  | Some s => chalk s v
  | None => v
  end.

(** The lines of each key-value view: label, where the field is read in
    the response, and the colour it is printed in. *)
Definition detail_fields (c : command)
    : list (jstring * (value -> value) * option style) :=
  match c with
  | ConsentsCreate _ =>
      [("Consent ID:    ", fun d => property (consent_of d) "ConsentId", Some Cyan);
       ("Status:        ", fun d => property (consent_of d) "Status", Some Green);
       ("Permissions:   ", fun d => property (consent_of d) "Permissions", None)]
  | ConsentsGet _ _ =>
      [("Consent ID:    ", fun d => property (consent_of d) "ConsentId", Some Cyan);
       ("Status:        ", fun d => property (consent_of d) "Status", Some Green);
       ("Permissions:   ", fun d => property (consent_of d) "Permissions", None);
       ("Created:       ", fun d => property (consent_of d) "CreationDateTime", None);
       ("Expires:       ", fun d => property (consent_of d) "ExpirationDateTime", None)]
  | AccountsGet _ _ =>
      [("Account ID:    ", fun d => property (account_of d) "AccountId", Some Cyan);
       ("Nickname:      ", fun d => property (account_of d) "Nickname", None);
       ("Type:          ", fun d => property (account_of d) "AccountType", None);
       ("Subtype:       ", fun d => property (account_of d) "AccountSubType", None);
       ("Currency:      ", fun d => property (account_of d) "Currency", None)]
  | PartyGet _ _ =>
      [("Party ID:      ", fun d => property (party_of d) "PartyId", Some Cyan);
       ("Name:          ", fun d => property (party_of d) "Name", None);
       ("Type:          ", fun d => property (party_of d) "PartyType", None);
       ("Email:         ", fun d => property (party_of d) "EmailAddress", None);
       ("Phone:         ", fun d => property (party_of d) "Phone", None)]
  | SandboxCreate _ =>
      [("Sandbox ID:    ", fun d => opt_get (property d "Data") "sandboxId", Some Cyan)]
  | _ => []
  end.

(** In a consent, [Permissions] is absent, null or an array. *)
Definition permissions_listed (c : command) (data : value) : Prop :=
  match c with
  | ConsentsCreate _ | ConsentsGet _ _ =>
      nullish (property (consent_of data) "Permissions") = true
      \/ exists xs, property (consent_of data) "Permissions" = JArr xs
  | _ => True
  end.

(** [v?.join(sep)] on a value that is nullish or an array. *)
Definition joined (v : value) (sep : jstring) : value :=
  match v with
  | JArr xs => JStr (array_join sep xs)
  | _ => JUndefined
  end.

(** The arrow function each table command maps over its items. *)
Definition row_builder (c : command) : option (value -> M row) :=
  match c with
  | AccountsList _ => Some account_row
  | BalancesGet _ _ => Some balance_row
  | BalancesList _ => Some all_balances_row
  | TransactionsGet _ _ => Some transaction_row
  | TransactionsList _ => Some all_transactions_row
  | BeneficiariesGet _ _ => Some beneficiary_row
  | StandingOrdersGet _ _ => Some standing_order_row
  | ScheduledPaymentsGet _ _ => Some scheduled_payment_row
  | StatementsGet _ _ => Some statement_row
  | _ => None
  end.

Definition field (f : jstring) : value -> value := fun x => property x f.

Definition nested (f g : jstring) : value -> value :=
  fun x => opt_get (property x f) g.

(** The cells of each table row: the key, where the value is read in the
    item, and whether the code falls back to ['N/A']. *)
Definition cells (c : command) : list (jstring * (value -> value) * bool) :=
  match c with
  | AccountsList _ =>
      [("id", field "AccountId", false);
       ("name",
        fun a => or_ (property a "Nickname")
                   (opt_get (opt_element (property a "Account") 0) "Name"),
        true);
       ("type", field "AccountType", true);
       ("subtype", field "AccountSubType", true)]
  | BalancesGet _ _ =>
      [("type", field "Type", false);
       ("amount", nested "Amount" "Amount", false);
       ("currency", nested "Amount" "Currency", false);
       ("creditDebit", field "CreditDebitIndicator", false);
       ("datetime", field "DateTime", false)]
  | BalancesList _ =>
      [("accountId", field "AccountId", false);
       ("type", field "Type", false);
       ("amount", nested "Amount" "Amount", false);
       ("currency", nested "Amount" "Currency", false);
       ("creditDebit", field "CreditDebitIndicator", false)]
  | TransactionsGet _ _ =>
      [("id", field "TransactionId", false);
       ("amount", nested "Amount" "Amount", false);
       ("currency", nested "Amount" "Currency", false);
       ("creditDebit", field "CreditDebitIndicator", false);
       ("status", field "Status", false);
       ("bookingDate", field "BookingDateTime", false);
       ("description", field "TransactionInformation", true)]
  | TransactionsList _ =>
      [("accountId", field "AccountId", false);
       ("id", field "TransactionId", false);
       ("amount", nested "Amount" "Amount", false);
       ("currency", nested "Amount" "Currency", false);
       ("creditDebit", field "CreditDebitIndicator", false);
       ("bookingDate", field "BookingDateTime", false)]
  | BeneficiariesGet _ _ =>
      [("id", field "BeneficiaryId", false);
       ("name", nested "CreditorAccount" "Name", true);
       ("accountId", nested "CreditorAccount" "Identification", true);
       ("reference", field "Reference", true)]
  | StandingOrdersGet _ _ =>
      [("id", field "StandingOrderId", false);
       ("frequency", field "Frequency", false);
       ("amount",
        fun o => or_ (nested "FirstPaymentAmount" "Amount" o)
                   (nested "FinalPaymentAmount" "Amount" o),
        false);
       ("currency",
        fun o => or_ (nested "FirstPaymentAmount" "Currency" o)
                   (nested "FinalPaymentAmount" "Currency" o),
        false);
       ("nextPayment", field "NextPaymentDateTime", false);
       ("reference", field "Reference", true)]
  | ScheduledPaymentsGet _ _ =>
      [("id", field "ScheduledPaymentId", false);
       ("scheduledDate", field "ScheduledPaymentDateTime", false);
       ("amount", nested "InstructedAmount" "Amount", false);
       ("currency", nested "InstructedAmount" "Currency", false);
       ("reference", field "Reference", true)]
  | StatementsGet _ _ =>
      [("id", field "StatementId", false);
       ("type", field "Type", false);
       ("startDate", field "StartDateTime", false);
       ("endDate", field "EndDateTime", false);
       ("description",
        fun s => opt_element (property s "StatementDescription") 0, true)]
  | _ => []
  end.

(** The row stated for an item: each cell holds its field, or ['N/A'] in
    place of a falsy field when the cell has the fallback. *)
Definition stated_row (c : command) (item : value) : row :=
  List.map
    (fun cell : jstring * (value -> value) * bool =>
       let '(k, src, fallback) := cell in
       (k, if fallback then or_ (src item) (JStr "N/A") else src item))
    (cells c).

(** The value an option of [config set] supplies: one that is given and
    not empty. *)
Definition supplied (o : option jstring) : option jstring :=
  match o with
  | Some v => if jeqb v "" then None else Some v
  | None => None
  end.

Definition write_supplied (k : jstring) (o : option jstring)
    (cfg : gmap jstring value) : gmap jstring value :=
  match supplied o with
  | Some v => <[k := JStr v]> cfg
  | None => cfg
  end.

(** The store stated to be left by [config set]. *)
Definition stated_store (cfg : gmap jstring value) (options : config_options)
    : gmap jstring value :=
  write_supplied "sandboxId" (opt_sandboxId options)
    (write_supplied "accessToken" (opt_accessToken options)
       (write_supplied "baseUrl" (opt_baseUrl options) cfg)).

(** The run issues no HTTP request. *)
Definition quiet {A} (m : M A) : Prop := requests m = [].

(** The event is a call of [console.log]. *)
Definition is_log (ev : event) : bool :=
  match ev with
  | ConsoleLog _ => true
  | _ => false
  end.

(** The run does nothing but call [console.log]. *)
Definition logs_only {A} (m : M A) : Prop :=
  Forall (fun ev => is_log ev = true) (trace m).

(** The commands that read the response body when [--json] is off: all
    but [consents delete]. *)
Definition reads_body (c : command) : bool :=
  match c with
  | ConsentsDelete _ _ => false
  | _ => true
  end.

(** The name of the variable that holds the item list of a table command
    (it shows in the message of the TypeError on [.map]). *)
Definition list_name (c : command) : jstring :=
  match c with
  | AccountsList _ => "accounts"
  | BalancesGet _ _ | BalancesList _ => "balances"
  | TransactionsGet _ _ | TransactionsList _ => "transactions"
  | BeneficiariesGet _ _ => "beneficiaries"
  | StandingOrdersGet _ _ => "orders"
  | ScheduledPaymentsGet _ _ => "payments"
  | StatementsGet _ _ => "statements"
  | _ => ""
  end.

(** The column list each table command passes to [printTable]. *)
Definition table_columns (c : command) : list column :=
  match c with
  | AccountsList _ =>
      [col "id" "Account ID"; col "name" "Name"; col "type" "Type";
       col "subtype" "Subtype"]
  | BalancesGet _ _ =>
      [col "type" "Type"; col "amount" "Amount"; col "currency" "Currency";
       col "creditDebit" "Credit/Debit"; col "datetime" "DateTime"]
  | BalancesList _ =>
      [col "accountId" "Account ID"; col "type" "Type";
       col "amount" "Amount"; col "currency" "Currency";
       col "creditDebit" "Credit/Debit"]
  | TransactionsGet _ _ =>
      [col "id" "Transaction ID"; col "amount" "Amount";
       col "currency" "Currency"; col "creditDebit" "Credit/Debit";
       col "bookingDate" "Booking Date"; col "description" "Description"]
  | TransactionsList _ =>
      [col "accountId" "Account ID"; col "id" "Transaction ID";
       col "amount" "Amount"; col "currency" "Currency";
       col "creditDebit" "Credit/Debit"; col "bookingDate" "Booking Date"]
  | BeneficiariesGet _ _ =>
      [col "id" "Beneficiary ID"; col "name" "Name";
       col "accountId" "Account ID"; col "reference" "Reference"]
  | StandingOrdersGet _ _ =>
      [col "id" "Standing Order ID"; col "frequency" "Frequency";
       col "amount" "Amount"; col "currency" "Currency";
       col "nextPayment" "Next Payment"; col "reference" "Reference"]
  | ScheduledPaymentsGet _ _ =>
      [col "id" "Payment ID"; col "scheduledDate" "Scheduled Date";
       col "amount" "Amount"; col "currency" "Currency";
       col "reference" "Reference"]
  | StatementsGet _ _ =>
      [col "id" "Statement ID"; col "type" "Type";
       col "startDate" "Start Date"; col "endDate" "End Date";
       col "description" "Description"]
  | _ => []
  end.

(** The confirmations [config set] prints, one per key it writes. *)
Definition set_messages (options : config_options) : list jstring :=
  (match supplied (opt_baseUrl options) with
   | Some _ => ["Base URL set"]
   | None => []
   end
     ++ match supplied (opt_accessToken options) with
        | Some _ => ["Access token set"]
        | None => []
        end
     ++ match supplied (opt_sandboxId options) with
        | Some _ => ["Sandbox ID set"]
        | None => []
        end)%list.

(** The world after the store was replaced. *)
Definition with_config (e : env) (cfg : gmap jstring value) : env :=
  {| config := cfg; server := server e; clock := clock e |}.

End Stated.

(** Unfolds the action of a command down to its guarded call, and the
    request in [Hs] down to the same call. *)
Ltac enter_view Hs :=
  unfold request_of in Hs;
  cbn [stated_method stated_path query_of payload_of] in Hs;
  unfold action, consents_create, consents_get, consents_delete,
    accounts_list, accounts_get, balances_get, balances_list,
    transactions_get, transactions_list, beneficiaries_get,
    standing_orders_get, scheduled_payments_get, statements_get, party_get,
    sandbox_create, createConsent, getConsent, deleteConsent, getAccounts,
    getAccount, getAccountBalances, getAllBalances, getAccountTransactions,
    getAllTransactions, getAccountBeneficiaries, getAccountStandingOrders,
    getAccountScheduledPayments, getAccountStatements, getAccountParty,
    createSandbox;
  cbv zeta.

(** The reads of a view on values known not to be nullish. *)
Create Rewrite HintDb view.

(** Runs that issue no request. *)
Create HintDb quiet discriminated.

(** ** Properties *)

(** Runs that only call [console.log]. *)
Create HintDb logs discriminated.

Section Properties.

Context `{RT : Runtime}.

(** *** Strings *)

Lemma jeqb_spec (a b : jstring) : reflect (a = b) (jeqb a b).
Proof.
  revert b. induction a as [| x a IH]; intros [| y b]; simpl;
    try (constructor; congruence).
  destruct (N.eqb_spec x y) as [-> | Hne]; simpl.
  - destruct (IH b) as [-> | Hne]; constructor; congruence.
  - constructor. congruence.
Qed.

Lemma jeqb_refl (a : jstring) : jeqb a a = true.
Proof. by destruct (jeqb_spec a a). Qed.

Lemma jeqb_eq (a b : jstring) : jeqb a b = true -> a = b.
Proof. by destruct (jeqb_spec a b). Qed.

Lemma jstring_dec (a b : jstring) : {a = b} + {a <> b}.
Proof. destruct (jeqb_spec a b); [by left | by right]. Defined.

(** *** The action monad *)

Lemma bind_ret {A B} (a : A) (f : A -> M B) : bind (ret a) f = f a.
Proof. unfold bind, ret. destruct (f a). reflexivity. Qed.

Lemma bind_throw {A B} (e : js_error) (f : A -> M B) :
  bind (throw e) f = throw e.
Proof. reflexivity. Qed.

Lemma bind_emit {B} (ev : event) (k : unit -> M B) :
  bind (emit ev) k = prefix [ev] (k tt).
Proof. unfold bind, emit, prefix. destruct (k tt). reflexivity. Qed.

Lemma bind_prefix {A B} (t : list event) (m : M A) (f : A -> M B) :
  bind (prefix t m) f = prefix t (bind m f).
Proof.
  destruct m as [t0 [e | a]]; unfold prefix, bind; simpl.
  - reflexivity.
  - destruct (f a) as [t1 r]. simpl. by rewrite <- app_assoc.
Qed.

Lemma try_catch_prefix {A} (t : list event) (m : M A) (h : js_error -> M A) :
  try_catch (prefix t m) h = prefix t (try_catch m h).
Proof.
  destruct m as [t0 [e | a]]; unfold prefix, try_catch; simpl.
  - destruct (h e) as [t1 r]. simpl. by rewrite <- app_assoc.
  - reflexivity.
Qed.

Lemma requests_prefix {A} (t : list event) (m : M A) :
  requests (prefix t m) = (requests (A := unit) (t, inr tt) ++ requests m)%list.
Proof. unfold requests, trace, prefix. simpl. apply omap_app. Qed.

(** *** One guarded call *)

Lemma withSpinner_send (e : env) (msg : jstring) (m : http_method)
    (path : jstring) (q : option (gmap jstring value)) (b : option value) :
  withSpinner msg (send e (getClient e) m path q b)
  = prefix [SpinnerStart msg; Http (issued e m path q b); SpinnerStop]
      (match server e (issued e m path q b) with
       | Resolved data => ret data
       | Rejected error => throw error
       end).
Proof.
  unfold withSpinner, send. fold (issued e m path q b).
  destruct (server e (issued e m path q b)); reflexivity.
Qed.

Lemma guarded_call (e : env) (msg : jstring) (m : http_method) (path : jstring)
    (q : option (gmap jstring value)) (b : option value)
    (k : value -> M unit) :
  guarded (let* data := withSpinner msg (send e (getClient e) m path q b) in
           k data)
  = match server e (issued e m path q b) with
    | Resolved data =>
        prefix [SpinnerStart msg; Http (issued e m path q b); SpinnerStop]
          (guarded (k data))
    | Rejected error =>
        ([SpinnerStart msg; Http (issued e m path q b); SpinnerStop;
          ConsoleError [JStr (paint Red ballot_x ++ " " ++ reported_message error)];
          ProcessExit 1], inr tt)
    end.
Proof.
  rewrite withSpinner_send, bind_prefix. unfold guarded at 1.
  rewrite try_catch_prefix.
  destruct (server e (issued e m path q b)) as [data | error].
  - by rewrite bind_ret.
  - rewrite bind_throw. unfold prefix, try_catch, throw, printError,
      process_exit, emit, bind, reported_message, server_message, or_. simpl.
    destruct (err_response error) as [d |]; simpl; [| reflexivity].
    by destruct (truthy (opt_get d "message")).
Qed.

(** *** Runs that issue no request *)

Lemma quiet_ret {A} (a : A) : quiet (ret a).
Proof. reflexivity. Qed.

Lemma quiet_throw {A} (e : js_error) : quiet (throw (A := A) e).
Proof. reflexivity. Qed.

Lemma quiet_bind {A B} (m : M A) (f : A -> M B) :
  quiet m -> (forall a, quiet (f a)) -> quiet (bind m f).
Proof.
  unfold quiet, requests, trace. destruct m as [t [e | a]]; simpl; [done |].
  intros Hm Hf. specialize (Hf a). destruct (f a) as [t' r]. simpl in *.
  by rewrite omap_app, Hm, Hf.
Qed.

Lemma quiet_try_catch {A} (m : M A) (h : js_error -> M A) :
  quiet m -> (forall e, quiet (h e)) -> quiet (try_catch m h).
Proof.
  unfold quiet, requests, trace. destruct m as [t [e | a]]; simpl; [| done].
  intros Hm Hh. specialize (Hh e). destruct (h e) as [t' r]. simpl in *.
  by rewrite omap_app, Hm, Hh.
Qed.

Lemma quiet_get (v : value) (k : jstring) : quiet (get v k).
Proof. unfold get. by destruct (nullish v). Qed.

Lemma quiet_map_M {A B} (f : A -> M B) (xs : list A) :
  (forall a, quiet (f a)) -> quiet (map_M f xs).
Proof.
  intros Hf. induction xs as [| x xs IH]; simpl; [apply quiet_ret |].
  apply quiet_bind; [apply Hf |]. intros y.
  apply quiet_bind; [apply IH |]. intros ys. apply quiet_ret.
Qed.

Lemma quiet_array_map {B} (name : jstring) (v : value) (f : value -> M B) :
  (forall a, quiet (f a)) -> quiet (array_map name v f).
Proof.
  intros Hf. destruct v; simpl; try apply quiet_throw. by apply quiet_map_M.
Qed.

Lemma quiet_opt_join (name : jstring) (v : value) (sep : jstring) :
  quiet (opt_join name v sep).
Proof. by destruct v. Qed.

Lemma quiet_emit_all (evs : list event) :
  requests (A := unit) (evs, inr tt) = [] -> quiet (emit_all evs).
Proof.
  induction evs as [| ev evs IH]; [reflexivity |].
  intros H. cbn [emit_all]. rewrite bind_emit. unfold quiet.
  rewrite requests_prefix.
  unfold quiet, requests, trace in *. simpl in *.
  destruct ev; simpl in *; try discriminate; by apply IH.
Qed.

Lemma quiet_printTable (data : option (list row)) (columns : list column) :
  quiet (printTable data columns).
Proof.
  destruct data as [[| r rows] |]; try reflexivity.
  unfold printTable.
  repeat (apply quiet_bind; [reflexivity | intros _]).
  apply quiet_bind; [| intros; reflexivity].
  apply quiet_emit_all. unfold requests, trace. simpl.
  generalize (table_widths (r :: rows) columns). intros ws.
  clear r. induction rows as [| x l IH]; simpl; done.
Qed.

#[local] Hint Resolve quiet_ret quiet_throw quiet_get quiet_opt_join
  quiet_printTable quiet_array_map quiet_bind quiet_try_catch : quiet.
#[local] Hint Extern 1 (quiet (if ?b then _ else _)) => destruct b : quiet.
#[local] Hint Extern 1 (quiet (get_then _ _ _)) => unfold get_then : quiet.
#[local] Hint Extern 1 (quiet (or_else _ _)) => unfold or_else : quiet.
#[local] Hint Extern 9 (quiet _) => reflexivity : quiet.

(** *** The shape every API command shares *)

Lemma action_shape (e : env) (c : command) :
  exists (msg : jstring) (k : value -> M unit),
    action e c
    = guarded (let* data := withSpinner msg
                              (send e (getClient e) (stated_method c)
                                 (stated_path c) (query_of c) (payload_of e c)) in
               k data)
    /\ (forall d, quiet (k d))
    /\ (json_flag c = true -> forall d, k d = printJson d).
Proof.
  destruct c; do 2 eexists;
    (split;
     [ reflexivity
     | split;
       [ intros d; eauto 60 with quiet nocore
       | simpl; intros Hj d; rewrite Hj; reflexivity ] ]).
Qed.

Lemma quiet_guarded (m : M unit) : quiet m -> quiet (guarded m).
Proof. intros H. apply quiet_try_catch; [done |]. intros err. reflexivity. Qed.

Lemma action_run (e : env) (c : command) :
  exists (msg : jstring) (k : value -> M unit),
    (forall d, quiet (k d))
    /\ (json_flag c = true -> forall d, k d = printJson d)
    /\ action e c
       = match server e (request_of e c) with
         | Resolved data =>
             prefix [SpinnerStart msg; Http (request_of e c); SpinnerStop]
               (guarded (k data))
         | Rejected error =>
             ([SpinnerStart msg; Http (request_of e c); SpinnerStop;
               ConsoleError
                 [JStr (paint Red ballot_x ++ " " ++ reported_message error)];
               ProcessExit 1], inr tt)
         end.
Proof.
  destruct (action_shape e c) as (msg & k & Hrun & Hq & Hj).
  exists msg, k. repeat split; [done | done |].
  rewrite Hrun. apply guarded_call.
Qed.

Lemma requests_action (e : env) (c : command) :
  requests (action e c) = [request_of e c].
Proof.
  destruct (action_run e c) as (msg & k & Hq & _ & ->).
  destruct (server e (request_of e c)) as [d | err]; [| reflexivity].
  rewrite requests_prefix. unfold requests at 1, trace. simpl.
  f_equal. apply quiet_guarded, Hq.
Qed.

(** C7. Every API command issues exactly one HTTP request, whatever the
    environment and the outcome of the call, and the verb and the path of
    that request are the ones stated for the command: they depend on the
    command and its arguments only. *)
Theorem one_request_per_command (e : env) (c : command) :
  exists r,
    requests (action e c) = [r]
    /\ method r = stated_method c
    /\ url r = stated_path c.
Proof. exists (request_of e c). split; [apply requests_action | done]. Qed.

(** C1. When the call of a command is rejected (network error or non-2xx
    answer), the command prints one error message with [console.error],
    the server's message when the response carries one and the local
    message otherwise, prints nothing with [console.log] and exits with
    status 1. *)
Theorem failed_call_reported (e : env) (c : command) (error : js_error) :
  (forall r, In r (requests (action e c)) -> server e r = Rejected error) ->
  stderr (action e c)
  = [[JStr (paint Red ballot_x ++ " " ++ reported_message error)]]
  /\ stdout (action e c) = []
  /\ exit_code (action e c) = 1.
Proof.
  intros H. assert (Hs : server e (request_of e c) = Rejected error).
  { apply H. rewrite requests_action. by left. }
  destruct (action_run e c) as (msg & k & _ & _ & ->).
  rewrite Hs. repeat split.
Qed.

(** *** The text of a JSON document *)

Lemma margin_step (depth : nat) : margin depth ++ "  " = margin (S depth).
Proof.
  unfold margin. induction depth as [| depth IH]; [reflexivity |].
  cbn [repeat_string]. rewrite <- !app_assoc. by rewrite IH.
Qed.

Lemma join_margin (inner : jstring) (parts : list jstring) :
  parts <> [] ->
  inner ++ join ("," ++ newline ++ inner) parts
  = join ("," ++ newline) (List.map (app inner) parts).
Proof.
  induction parts as [| p parts IH]; [done |]. intros _.
  destruct parts as [| q parts]; [reflexivity |].
  change (inner ++ p ++ ("," ++ newline ++ inner)
            ++ join ("," ++ newline ++ inner) (q :: parts)
          = (inner ++ p) ++ ("," ++ newline)
              ++ join ("," ++ newline) (List.map (app inner) (q :: parts))).
  rewrite <- IH by done. by rewrite <- !app_assoc.
Qed.

(** [JSON.stringify] with a gap of two spaces writes a JSON document as
    [pretty_json] lays it out. *)
Lemma serialize_pretty (v : value) :
  forall depth,
    is_json v = true ->
    exists text,
      serialize "  " (margin depth) v = Some text
      /\ pretty_json depth v text.
Proof.
  revert v. fix IH 1.
  intros [| | [|] | n | s | xs | props] depth Hv; try discriminate Hv.
  - eexists. split; [reflexivity | constructor].
  - eexists. split; [reflexivity | constructor].
  - eexists. split; [reflexivity | constructor].
  - simpl in Hv. eexists. split; [simpl; by rewrite Hv | by constructor].
  - eexists. split; [reflexivity | constructor].
  - assert (Hparts :
      exists texts,
        List.map (fun x => default "null" (serialize "  " (margin (S depth)) x))
          xs = texts
        /\ Forall2
             (fun x line =>
                exists text,
                  pretty_json (S depth) x text
                  /\ line = margin (S depth) ++ text)
             xs (List.map (app (margin (S depth))) texts)).
    { clear -IH Hv. simpl in Hv. induction xs as [| x xs IHxs].
      - exists []. split; [reflexivity | constructor].
      - cbn [forallb] in Hv. apply andb_prop in Hv as [Hx Hxs].
        destruct (IH x (S depth) Hx) as (t & Ht & Hp).
        destruct (IHxs Hxs) as (ts & Hts & Hps).
        exists (t :: ts). split.
        + cbn [List.map]. by rewrite Ht, Hts.
        + cbn [List.map]. constructor; [by exists t | exact Hps]. }
    destruct Hparts as (texts & Htexts & Hlines).
    cbn [serialize]. rewrite margin_step, Htexts.
    destruct xs as [| x xs].
    + subst texts. eexists. split; [reflexivity | constructor].
    + destruct texts as [| t texts]; [discriminate Htexts |].
      eexists. split; [| by apply pretty_array].
      unfold bracket. cbn [jeqb]. f_equal.
      rewrite <- (join_margin (margin (S depth)) (t :: texts)) by done.
      by rewrite <- ?app_assoc.
  - assert (Hparts :
      exists texts,
        (fix members (ps : list (jstring * value)) : list jstring :=
           match ps with
           | [] => []
           | (k, x) :: rest =>
               match serialize "  " (margin (S depth)) x with
               | Some s => (quote k ++ ":" ++ " " ++ s) :: members rest
               | None => members rest
               end
           end) props = texts
        /\ Forall2
             (fun (member : jstring * value) line =>
                exists text,
                  pretty_json (S depth) (snd member) text
                  /\ line
                     = margin (S depth) ++ quote (fst member) ++ ": " ++ text)
             props (List.map (app (margin (S depth))) texts)).
    { clear -IH Hv. simpl in Hv. induction props as [| [k x] props IHps].
      - exists []. split; [reflexivity | constructor].
      - apply andb_prop in Hv as [Hx Hps].
        destruct (IH x (S depth) Hx) as (t & Ht & Hp).
        destruct (IHps Hps) as (ts & Hts & Hlines).
        exists ((quote k ++ ":" ++ " " ++ t) :: ts). split.
        + by rewrite Ht, Hts.
        + cbn [List.map]. constructor; [| exact Hlines].
          exists t. split; [exact Hp | reflexivity]. }
    destruct Hparts as (texts & Htexts & Hlines).
    cbn [serialize jeqb]. rewrite margin_step.
    change (if false then "" else " ") with (" " : jstring).
    rewrite Htexts.
    destruct props as [| p props].
    + subst texts. eexists. split; [reflexivity | constructor].
    + destruct texts as [| t texts]; [inversion Hlines |].
      eexists. split; [| by apply pretty_object].
      unfold bracket. cbn [jeqb]. f_equal.
      rewrite <- (join_margin (margin (S depth)) (t :: texts)) by done.
      by rewrite <- ?app_assoc.
Qed.

(** C2. With [--json], a command whose call succeeds prints one thing with
    [console.log]: [JSON.stringify(data, null, 2)] of the response body as
    received, and nothing else: no table, no message, no call of
    [console.error], exit status 0.  For a body that is a JSON document the
    text printed is the document itself, laid out with an indentation of
    two spaces: every element and every member of the body, in its order,
    and nothing more. *)
Theorem json_prints_raw_body (e : env) (c : command) (data : value) :
  json_flag c = true ->
  (forall r, In r (requests (action e c)) -> server e r = Resolved data) ->
  stdout (action e c) = [[JSON_stringify data 2]]
  /\ stderr (action e c) = []
  /\ exit_code (action e c) = 0
  /\ (is_json data = true ->
      exists text,
        stdout (action e c) = [[JStr text]] /\ pretty_json 0 data text).
Proof.
  intros Hj H. assert (Hs : server e (request_of e c) = Resolved data).
  { apply H. rewrite requests_action. by left. }
  destruct (action_run e c) as (msg & k & _ & Hk & ->).
  rewrite Hs, (Hk Hj). split; [reflexivity |]. split; [reflexivity |].
  split; [reflexivity |]. intros Hd.
  destruct (serialize_pretty data 0 Hd) as (text & Htext & Hp).
  exists text. split; [| exact Hp].
  unfold printJson, JSON_stringify. cbn [Nat.min repeat_string app].
  change (margin 0) with ([] : jstring) in Htext. by rewrite Htext.
Qed.

(** *** Configuration and query parameters on the wire *)

Lemma getConfig_configured (e : env) (k : jstring) (v : value) :
  configured e k v -> getConfig (config e) k = v /\ truthy v = true.
Proof. intros [H Ht]. unfold getConfig. by rewrite H. Qed.

Lemma getConfig_unconfigured (e : env) (k : jstring) :
  (forall v, ~ configured e k v) -> truthy (getConfig (config e) k) = false.
Proof.
  intros H. unfold getConfig. destruct (config e !! k) as [v |] eqn:Hk;
    [| reflexivity].
  simpl. destruct (truthy v) eqn:Ht; [| reflexivity].
  exfalso. by apply (H v).
Qed.

(** C5. The request of every command is handed to axios with the configured
    base URL (the default one when none is configured) next to the endpoint
    path, with [Authorization: Bearer <token>] when an access token is
    configured and with [sandbox-id: <id>] when a sandbox id is. *)
Theorem request_carries_configuration (e : env) (c : command) (r : request) :
  In r (requests (action e c)) ->
  url r = stated_path c
  /\ (forall v, configured e "baseUrl" v -> baseURL r = v)
  /\ ((forall v, ~ configured e "baseUrl" v) ->
      baseURL r = JStr "https://apis.nbg.gr/uk/v3_1")
  /\ (forall v, configured e "accessToken" v ->
      headers r !! "Authorization" = Some (JStr ("Bearer " ++ ToString v)))
  /\ (forall v, configured e "sandboxId" v ->
      headers r !! "sandbox-id" = Some v).
Proof.
  rewrite requests_action. intros [<- | []].
  unfold request_of, issued, getClient. simpl.
  split; [reflexivity |]. split; [| split; [| split]].
  - intros v [-> Ht]%getConfig_configured. unfold or_. by rewrite Ht.
  - intros H%getConfig_unconfigured. unfold or_. by rewrite H.
  - intros v [-> Ht]%getConfig_configured. rewrite Ht.
    destruct (truthy (getConfig (config e) "sandboxId")).
    + rewrite lookup_insert_ne by done. by rewrite lookup_insert_eq.
    + by rewrite lookup_insert_eq.
  - intros v [-> Ht]%getConfig_configured. rewrite Ht.
    by rewrite lookup_insert_eq.
Qed.

Lemma range_params_lookup (fk tk : jstring) (o : range_options) (k : jstring) :
  fk <> tk ->
  range_params fk tk o !! k
  = if jeqb k tk
    then (if truthy (option_value (opt_to o))
          then Some (option_value (opt_to o)) else None)
    else if jeqb k fk
    then (if truthy (option_value (opt_from o))
          then Some (option_value (opt_from o)) else None)
    else None.
Proof.
  intros Hne. unfold range_params.
  destruct (jeqb_spec k tk) as [-> | Hk].
  - destruct (truthy (option_value (opt_to o))).
    + by rewrite lookup_insert_eq.
    + destruct (truthy (option_value (opt_from o)));
        [by rewrite lookup_insert_ne, lookup_empty | by rewrite lookup_empty].
  - destruct (truthy (option_value (opt_to o)));
      [rewrite lookup_insert_ne by done |];
      (destruct (jeqb_spec k fk) as [-> | Hk'];
       destruct (truthy (option_value (opt_from o)));
       rewrite ?lookup_insert_eq, ?lookup_insert_ne, ?lookup_empty by done;
       done).
Qed.

Lemma truthy_option_value (o : option jstring) :
  truthy (option_value o) = true <-> exists s, o = Some s /\ s <> "".
Proof.
  destruct o as [s |]; simpl.
  - destruct (jeqb_spec s ""); simpl; split.
    + done.
    + intros (s' & [= <-] & Hs). done.
    + intros _. by exists s.
    + done.
  - split; [done | by intros (s & ? & _)].
Qed.

(** C6, as amended. For [transactions get], [transactions list] and
    [statements get], the query of the request holds the from-parameter
    exactly when [--from] was given a non-empty value, and then with that
    value; likewise the to-parameter for [--to]; it holds no other
    parameter. *)
Theorem range_query_parameters (e : env) (c : command) (r : request)
    (fk tk : jstring) (o : range_options) :
  range_of c = Some (fk, tk, o) ->
  In r (requests (action e c)) ->
  exists q,
    params r = Some q
    /\ (forall v, q !! fk = Some v
                  <-> exists s, opt_from o = Some s /\ s <> "" /\ v = JStr s)
    /\ (forall v, q !! tk = Some v
                  <-> exists s, opt_to o = Some s /\ s <> "" /\ v = JStr s)
    /\ (forall k, k <> fk -> k <> tk -> q !! k = None).
Proof.
  intros Hc. rewrite requests_action. intros [<- | []].
  assert (Hq : params (request_of e c) = Some (range_params fk tk o)
               /\ fk <> tk).
  { destruct c; simpl in Hc; try discriminate; by injection Hc as <- <- <-. }
  destruct Hq as [Hq Hne]. exists (range_params fk tk o).
  split; [done |].
  assert (Hsome : forall (x : option jstring) v,
             (if truthy (option_value x) then Some (option_value x) else None)
             = Some v
             <-> exists s, x = Some s /\ s <> "" /\ v = JStr s).
  { intros x v. destruct (truthy (option_value x)) eqn:Ht.
    - apply truthy_option_value in Ht as (s & -> & Hs). simpl. split.
      + intros [= <-]. by exists s.
      + by intros (s' & [= <-] & _ & ->).
    - split; [done |]. intros (s & -> & Hs & _).
      assert (truthy (option_value (Some s)) = true)
        by (apply truthy_option_value; by exists s).
      congruence. }
  split; [| split].
  - intros v. rewrite range_params_lookup by done.
    destruct (jeqb_spec fk tk); [done |]. rewrite jeqb_refl.
    apply Hsome.
  - intros v. rewrite range_params_lookup by done. rewrite jeqb_refl.
    apply Hsome.
  - intros k Hf Ht. rewrite range_params_lookup by done.
    destruct (jeqb_spec k tk); [done |].
    by destruct (jeqb_spec k fk).
Qed.

(** *** The table renderer *)

Lemma length_spaces (n : nat) : length (repeat_string " " n) = n.
Proof.
  induction n as [| n IH]; [done |].
  cbn [repeat_string]. by rewrite length_app, IH.
Qed.

Lemma length_padEnd (s : jstring) (n : nat) :
  length (padEnd s n) = Nat.max (length s) n.
Proof.
  unfold padEnd. destruct (Nat.leb_spec n (length s)); [lia |].
  rewrite length_app, length_spaces. lia.
Qed.

Lemma padEnd_spaces (s : jstring) (n : nat) :
  padEnd s n = s ++ repeat_string " " (n - length s).
Proof.
  unfold padEnd. destruct (Nat.leb_spec n (length s)) as [Hle | Hlt]; [| done].
  replace (n - length s) with 0 by lia. cbn [repeat_string].
  by rewrite app_nil_r.
Qed.

Lemma widths_set_insert (k : jstring) (w : width) (ws : gmap jstring width) :
  k <> "__proto__" -> widths_set k w ws = <[k := w]> ws.
Proof.
  intros Hk. unfold widths_set. destruct (ws !! k); [done |].
  by destruct (jeqb_spec k "__proto__").
Qed.

Lemma widths_set_other (k k' : jstring) (w : width)
    (ws : gmap jstring width) :
  k <> k' -> widths_set k w ws !! k' = ws !! k'.
Proof.
  intros Hk. unfold widths_set.
  destruct (ws !! k); [by rewrite lookup_insert_ne |].
  destruct (jeqb k "__proto__"); [done | by rewrite lookup_insert_ne].
Qed.

Lemma widths_set_proto (w : width) (ws : gmap jstring width) :
  ws !! ("__proto__" : jstring) = None -> widths_set "__proto__" w ws = ws.
Proof. intros H. unfold widths_set. by rewrite H. Qed.

Lemma widths_get_own (k : jstring) (w : width) (ws : gmap jstring width) :
  ws !! k = Some w -> widths_get ws k = Own w.
Proof. intros H. unfold widths_get. by rewrite H. Qed.

Lemma widths_get_insert (k : jstring) (w : width) (ws : gmap jstring width) :
  widths_get (<[k := w]> ws) k = Own w.
Proof. unfold widths_get. by rewrite lookup_insert_eq. Qed.

Lemma widths_get_proto (ws : gmap jstring width) :
  ws !! ("__proto__" : jstring) = None -> widths_get ws "__proto__" = Inherited.
Proof. intros H. unfold widths_get. by rewrite H. Qed.

Lemma measure_rows (c : column) (data : list row) (ws : gmap jstring width)
    (w0 : nat) :
  key c <> "__proto__" ->
  ws !! key c = Some (Len w0) ->
  fold_left
    (fun ws r =>
       let val := cell_text c r in
       if exceeds (length val) (widths_get ws (key c))
       then widths_set (key c) (Len (length val)) ws
       else ws)
    data ws
  = <[key c := Len (Nat.max w0
                      (max_list_with (fun r => length (cell_text c r)) data))]>
      ws.
Proof.
  intros Hk. revert ws w0.
  induction data as [| r data IH]; intros ws w0 Hw; simpl.
  - rewrite Nat.max_0_r. symmetry. by apply insert_id.
  - rewrite (widths_get_own _ _ _ Hw). cbn [exceeds].
    destruct (Nat.ltb_spec w0 (length (cell_text c r))) as [Hlt | Hge].
    + rewrite widths_set_insert by done.
      rewrite (IH _ (length (cell_text c r))) by apply lookup_insert_eq.
      rewrite insert_insert_eq. do 2 f_equal. lia.
    + rewrite (IH _ w0) by done. do 2 f_equal. lia.
Qed.

Lemma measure_rows_other (c : column) (data : list row)
    (ws : gmap jstring width) (k : jstring) :
  key c <> k ->
  fold_left
    (fun ws r =>
       let val := cell_text c r in
       if exceeds (length val) (widths_get ws (key c))
       then widths_set (key c) (Len (length val)) ws
       else ws)
    data ws !! k
  = ws !! k.
Proof.
  intros Hk. revert ws. induction data as [| r data IH]; intros ws; simpl;
    [done |].
  rewrite IH. destruct (exceeds _ _); [by apply widths_set_other | done].
Qed.

(** Away from [__proto__] a column leaves its stated width under its key. *)
Lemma measure_column_insert (data : list row) (ws : gmap jstring width)
    (c : column) :
  key c <> "__proto__" ->
  measure_column data ws c = <[key c := Len (stated_width data c)]> ws.
Proof.
  intros Hk. unfold measure_column.
  rewrite (widths_set_insert _ _ ws) by done.
  rewrite (measure_rows c data _ (length (label c)))
    by (done || apply lookup_insert_eq).
  rewrite widths_get_insert. cbn [min_50].
  rewrite widths_set_insert by done. by rewrite !insert_insert_eq.
Qed.

Lemma measure_column_other (data : list row) (ws : gmap jstring width)
    (c : column) (k : jstring) :
  key c <> k -> measure_column data ws c !! k = ws !! k.
Proof.
  intros Hk. unfold measure_column.
  rewrite widths_set_other by done. rewrite measure_rows_other by done.
  by apply widths_set_other.
Qed.

(** A column keyed [__proto__] leaves [widths] as it was: every assignment
    is ignored and every comparison is false. *)
Lemma measure_column_proto (data : list row) (ws : gmap jstring width)
    (c : column) :
  key c = "__proto__" ->
  ws !! ("__proto__" : jstring) = None ->
  measure_column data ws c = ws.
Proof.
  intros Hk Hws. unfold measure_column. cbv zeta. rewrite Hk.
  rewrite (widths_set_proto _ ws) by done.
  assert (Hrows :
    fold_left
      (fun ws r =>
         if exceeds (length (cell_text c r)) (widths_get ws "__proto__")
         then widths_set "__proto__" (Len (length (cell_text c r))) ws
         else ws)
      data ws = ws).
  { induction data as [| r data IH]; [done |].
    cbn [fold_left]. rewrite widths_get_proto by done.
    cbn [exceeds]. exact IH. }
  rewrite Hrows. by apply widths_set_proto.
Qed.

Lemma widths_other (data : list row) (columns : list column)
    (ws : gmap jstring width) (k : jstring) :
  ~ In k (List.map key columns) ->
  fold_left (measure_column data) columns ws !! k = ws !! k.
Proof.
  revert ws. induction columns as [| c columns IH]; intros ws Hk; simpl;
    [done |].
  rewrite IH by (intros ?; apply Hk; by right).
  apply measure_column_other. intros Heq. apply Hk. by left.
Qed.

Lemma widths_column (data : list row) (columns : list column)
    (ws : gmap jstring width) (c : column) :
  List.NoDup (List.map key columns) ->
  In c columns ->
  key c <> "__proto__" ->
  fold_left (measure_column data) columns ws !! key c
  = Some (Len (stated_width data c)).
Proof.
  revert ws. induction columns as [| c0 columns IH]; intros ws Hnd Hc Hk;
    [destruct Hc |].
  simpl in *. apply List.NoDup_cons_iff in Hnd as [Hfresh Hnd].
  destruct Hc as [-> | Hc].
  - rewrite widths_other by done. rewrite measure_column_insert by done.
    apply lookup_insert_eq.
  - by apply IH.
Qed.

Lemma emit_all_run (evs : list event) : emit_all evs = (evs, inr tt).
Proof.
  induction evs as [| ev evs IH]; [reflexivity |].
  cbn [emit_all]. by rewrite bind_emit, IH.
Qed.

Lemma stdout_logs {A} (f : A -> list value) (l : list A) (t : list event) :
  omap (fun ev => match ev with ConsoleLog args => Some args | _ => None end)
    (List.map (fun a => ConsoleLog (f a)) l ++ t)%list
  = (List.map f l
       ++ omap (fun ev => match ev with
                          | ConsoleLog args => Some args
                          | _ => None
                          end) t)%list.
Proof.
  induction l as [| a l IH]; [reflexivity |].
  cbn [List.map app]. rewrite <- IH. reflexivity.
Qed.

(** What [printTable] writes for a non-empty table: the header, the rule,
    one line per row and the count. *)
Lemma printTable_stdout (r : row) (rows : list row) (columns : list column) :
  let data := r :: rows in
  let widths := table_widths data columns in
  stdout (printTable (Some data) columns)
  = ([chalk Bold (chalk Cyan (JStr (header_line widths columns)))]
       :: [chalk Dim
             (JStr (repeat_string light_horizontal
                      (length (header_line widths columns))))]
       :: List.map (fun r => [JStr (data_line widths columns r)]) data
       ++ [[chalk Dim
              (JStr (newline
                       ++ number_to_string (number_of_nat (List.length data))
                       ++ " result(s)"))]])%list.
Proof.
  intros data widths. subst data widths.
  unfold printTable. cbv beta iota zeta. rewrite emit_all_run.
  unfold stdout, trace, bind, emit. cbn [fst snd].
  set (line := fun r0 : row =>
                 [JStr (data_line (table_widths (r :: rows) columns) columns r0)]).
  exact (f_equal (fun x => _ :: _ :: x) (stdout_logs line (r :: rows) [_])).
Qed.

(** The column lists of the program: no formatter, keys that are not names
    of [Object.prototype], short labels, and no key twice. *)
Lemma table_columns_plain (c : command) (cl : column) :
  In cl (table_columns c) ->
  format cl = None /\ inherited (key cl) = false /\ length (label cl) <= 50.
Proof.
  destruct c; simpl; intros H;
    repeat (destruct H as [<- | H];
            [split; [reflexivity | split; [reflexivity | simpl; lia]] |]);
    destruct H.
Qed.

Lemma table_columns_distinct (c : command) :
  List.NoDup (List.map key (table_columns c)).
Proof.
  destruct c; simpl;
    repeat (apply List.NoDup_cons; [simpl; intuition discriminate |]);
    apply List.NoDup_nil.
Qed.

Lemma not_inherited_proto (k : jstring) :
  inherited k = false -> k <> "__proto__".
Proof. intros H ->. discriminate H. Qed.

(** Under a key that is no name of [Object.prototype] and without a
    formatter, a cell shows the row's own property, blank when it is
    missing or null. *)
Lemma cell_text_plain (cl : column) (r : row) :
  format cl = None ->
  inherited (key cl) = false ->
  cell_text cl r = ToString (coalesce (assoc (key cl) r) (JStr "")).
Proof.
  intros Hf Hk. unfold cell_text, row_read. by rewrite Hf, Hk.
Qed.

Lemma table_action_columns (e : env) (c : command) (items : jstring)
    (build : value -> M row) :
  table_items c = Some items ->
  row_builder c = Some build ->
  exists msg : jstring,
    action e c
    = guarded
        (let* data := withSpinner msg
                        (send e (getClient e) (stated_method c)
                           (stated_path c) (query_of c) (payload_of e c)) in
         if json_flag c then printJson data
         else
           let* list := or_else (get_then data "Data" items) (ret (JArr [])) in
           let* tableData := array_map (list_name c) list build in
           printTable (Some tableData) (table_columns c)).
Proof.
  intros Hi Hb.
  destruct c; simpl in Hi; try discriminate; injection Hi as <-;
    injection Hb as <-; eexists; reflexivity.
Qed.

(** C3. In every table the program prints (the column list of a table
    command, any non-empty list of rows), every column gets a width: the
    longer of its label and its longest cell text, capped at 50.  The
    header cell and each data cell of the column are exactly that wide: a
    cell text longer than the width is cut to it, a shorter one (and the
    label) is padded on the right with spaces.  The header line and the
    data lines are these cells joined by two spaces, so the header aligns
    with the rows.  The column list is the one the command's action
    passes to [printTable]. *)
Theorem table_cells_have_column_width (c : command) (r0 : row)
    (rows : list row) (cl : column) :
  In cl (table_columns c) ->
  let data := r0 :: rows in
  let columns := table_columns c in
  let w := stated_width data cl in
  let widths := table_widths data columns in
  (forall r,
     cell_text cl r = ToString (coalesce (assoc (key cl) r) (JStr "")))
  /\ widths_get widths (key cl) = Own (Len w)
  /\ w <= 50
  /\ header_cell widths cl
     = label cl ++ repeat_string " " (w - length (label cl))
  /\ length (header_cell widths cl) = w
  /\ (forall r, In r data ->
        length (data_cell widths cl r) = w
        /\ (w <= length (cell_text cl r) ->
            data_cell widths cl r = take w (cell_text cl r))
        /\ (length (cell_text cl r) <= w ->
            data_cell widths cl r
            = cell_text cl r
                ++ repeat_string " " (w - length (cell_text cl r))))
  /\ stdout (printTable (Some data) columns)
     = ([chalk Bold
           (chalk Cyan
              (JStr (join "  " (List.map (header_cell widths) columns))))]
          :: [chalk Dim
                (JStr (repeat_string light_horizontal
                         (length
                            (join "  "
                               (List.map (header_cell widths) columns)))))]
          :: List.map
               (fun r =>
                  [JStr (join "  "
                           (List.map (fun cl => data_cell widths cl r)
                              columns))])
               data
          ++ [[chalk Dim
                 (JStr (newline
                          ++ number_to_string
                               (number_of_nat (length data))
                          ++ " result(s)"))]])%list
  /\ (forall e items build,
        table_items c = Some items ->
        row_builder c = Some build ->
        exists msg : jstring,
          action e c
          = guarded
              (let* body := withSpinner msg
                              (send e (getClient e) (stated_method c)
                                 (stated_path c) (query_of c)
                                 (payload_of e c)) in
               if json_flag c then printJson body
               else
                 let* list :=
                   or_else (get_then body "Data" items) (ret (JArr [])) in
                 let* tableData := array_map (list_name c) list build in
                 printTable (Some tableData) columns)).
Proof.
  intros Hc data columns w widths.
  destruct (table_columns_plain c cl Hc) as (Hf & Hin & Hl).
  assert (Hk : key cl <> "__proto__") by (by apply not_inherited_proto).
  assert (Hg : widths_get widths (key cl) = Own (Len w)).
  { apply widths_get_own, widths_column;
      [apply table_columns_distinct | done | done]. }
  assert (Hw50 : w <= 50) by (unfold w, stated_width; lia).
  split; [intros r; by apply cell_text_plain |].
  split; [done |]. split; [done |].
  split; [| split; [| split; [| split]]].
  - unfold header_cell. rewrite Hg. cbn [to_length]. apply padEnd_spaces.
  - unfold header_cell. rewrite Hg. cbn [to_length]. rewrite length_padEnd.
    unfold w, stated_width. lia.
  - intros r Hr. unfold data_cell. cbv zeta. rewrite Hg.
    cbn [substring_to to_length]. split; [| split].
    + rewrite length_padEnd, length_take. lia.
    + intros Hlong. unfold padEnd. rewrite length_take.
      destruct (Nat.leb_spec w (Nat.min w (length (cell_text cl r))));
        [done | lia].
    + intros Hshort. rewrite take_ge by done. apply padEnd_spaces.
  - apply printTable_stdout.
  - intros e items build Hi Hb. by apply table_action_columns.
Qed.

(** *** Views on a response that is an object *)

Lemma get_ok (v : value) (k : jstring) :
  nullish v = false -> get v k = ret (property v k).
Proof. intros H. unfold get. by rewrite H. Qed.

Lemma get_then_ok (v : value) (k k' : jstring) :
  nullish v = false -> get_then v k k' = ret (opt_get (property v k) k').
Proof. intros H. unfold get_then. by rewrite get_ok, bind_ret. Qed.

Lemma or_else_ret (a b : value) : or_else (ret a) (ret b) = ret (or_ a b).
Proof. unfold or_else, or_. rewrite bind_ret. by destruct (truthy a). Qed.

Lemma truthy_not_nullish (v : value) : truthy v = true -> nullish v = false.
Proof. by destruct v. Qed.

Lemma nullish_or (a b : value) : nullish b = false -> nullish (or_ a b) = false.
Proof.
  intros Hb. unfold or_. destruct (truthy a) eqn:Ha; [| done].
  by apply truthy_not_nullish.
Qed.

Lemma nullish_falsy (v : value) : nullish v = true -> truthy v = false.
Proof. by destruct v. Qed.

Lemma or_nullish (a b : value) : nullish a = true -> or_ a b = b.
Proof. intros H. unfold or_. by rewrite nullish_falsy. Qed.

Lemma server_of_requests (e : env) (c : command) (res : http_result) :
  (forall r, In r (requests (action e c)) -> server e r = res) ->
  server e (request_of e c) = res.
Proof. intros H. apply H. rewrite requests_action. by left. Qed.

(** C10, as amended. A table command whose response body is neither
    [null] nor [undefined], and in which the item list is missing, null or
    empty, prints the single line [No results found.] with [console.log]
    and ends normally: no header, no count, no call of [console.error],
    exit status 0. *)
Theorem empty_table_message (e : env) (c : command) (items : jstring)
    (data : value) :
  table_items c = Some items ->
  json_flag c = false ->
  (forall r, In r (requests (action e c)) -> server e r = Resolved data) ->
  nullish data = false ->
  nullish (opt_get (property data "Data") items) = true
  \/ opt_get (property data "Data") items = JArr [] ->
  stdout (action e c) = [[chalk Yellow (JStr "No results found.")]]
  /\ stderr (action e c) = []
  /\ exit_code (action e c) = 0.
Proof.
  intros Hc Hj Hs%server_of_requests Hd Hitems.
  assert (Hl : or_ (opt_get (property data "Data") items) (JArr []) = JArr []).
  { destruct Hitems as [H | ->]; [by apply or_nullish | reflexivity]. }
  destruct c; simpl in Hc; try discriminate; injection Hc as <-;
    simpl in Hj; enter_view Hs; rewrite guarded_call, Hs, Hj;
    rewrite get_then_ok, or_else_ret, bind_ret, Hl by done;
    repeat split.
Qed.

(** *** Missing fields *)

#[local] Hint Rewrite get_ok get_then_ok
  using (assumption || (apply nullish_or; reflexivity)) : view.
#[local] Hint Rewrite or_else_ret @bind_ret : view.

Lemma opt_join_listed (name : jstring) (v : value) (sep : jstring) :
  nullish v = true \/ (exists xs, v = JArr xs) ->
  opt_join name v sep = ret (joined v sep).
Proof.
  intros [H | [xs ->]]; [| reflexivity].
  unfold opt_join. rewrite H. by destruct v.
Qed.

Lemma joined_nullish (v : value) (sep : jstring) :
  nullish v = true -> joined v sep = JUndefined.
Proof. by destruct v. Qed.

Lemma row_builder_stated (c : command) (build : value -> M row)
    (item : value) :
  row_builder c = Some build ->
  nullish item = false ->
  build item = ret (stated_row c item).
Proof.
  intros Hb Hi.
  destruct c; simpl in Hb; try discriminate; injection Hb as <-;
    unfold account_row, balance_row, all_balances_row, transaction_row,
      all_transactions_row, beneficiary_row, standing_order_row,
      scheduled_payment_row, statement_row;
    autorewrite with view; reflexivity.
Qed.

Lemma stated_row_cell (c : command) (item : value) (k l : jstring)
    (src : value -> value) (fallback : bool) :
  In (k, src, fallback) (cells c) ->
  nullish (src item) = true ->
  cell_text (col k l) (stated_row c item) = if fallback then "N/A" else "".
Proof.
  intros Hin Hnull.
  destruct c; simpl in Hin;
    repeat (destruct Hin as [Hin | Hin]; [injection Hin as <- <- <- |]);
    try destruct Hin;
    unfold cell_text, stated_row, coalesce; simpl;
    rewrite ?(or_nullish _ _ Hnull), ?Hnull; reflexivity.
Qed.

Lemma table_action (e : env) (c : command) (build : value -> M row) :
  row_builder c = Some build ->
  exists (msg name items : jstring) (columns : list column),
    table_items c = Some items
    /\ action e c
       = guarded
           (let* data := withSpinner msg
                           (send e (getClient e) (stated_method c)
                              (stated_path c) (query_of c) (payload_of e c)) in
            if json_flag c then printJson data
            else
              let* list := or_else (get_then data "Data" items)
                             (ret (JArr [])) in
              let* tableData := array_map name list build in
              printTable (Some tableData) columns)
    /\ Forall
         (fun cl =>
            format cl = None
            /\ exists src fallback, In (key cl, src, fallback) (cells c))
         columns.
Proof.
  intros Hb.
  destruct c; simpl in Hb; try discriminate; injection Hb as <-;
    do 4 eexists; (split; [reflexivity | split; [reflexivity |]]);
    repeat (apply List.Forall_cons;
            [ split; [reflexivity | do 2 eexists; simpl; eauto 10] |]);
    apply List.Forall_nil.
Qed.

Lemma detail_view_fields (e : env) (c : command) (data : value) :
  detail_fields c <> [] ->
  json_flag c = false ->
  server e (request_of e c) = Resolved data ->
  nullish data = false ->
  permissions_listed c data ->
  stderr (action e c) = []
  /\ exit_code (action e c) = 0
  /\ (forall l src st,
        In (l, src, st) (detail_fields c) ->
        nullish (src data) = true ->
        In [JStr l; shown st (JStr "N/A")] (stdout (action e c))).
Proof.
  intros Hf Hj Hs Hd Hp.
  destruct c; simpl in Hf; try congruence; clear Hf; simpl in Hj;
    unfold permissions_listed in Hp; unfold consent_of in Hp;
    enter_view Hs; rewrite guarded_call, Hs, Hj; autorewrite with view;
    rewrite ?(opt_join_listed _ _ _ Hp); autorewrite with view;
    unfold log_field, log_text, printSuccess; cbn [bind emit app];
    unfold guarded, try_catch, prefix; cbn [fst snd app];
    (split; [reflexivity | split; [reflexivity |]]);
    intros l src st Hin Hnull; simpl in Hin;
    repeat (destruct Hin as [Hin | Hin]; [injection Hin as <- <- <- |]);
    try destruct Hin;
    unfold consent_of, account_of, party_of in Hnull;
    unfold stdout, trace, shown; cbn [fst omap list_omap];
    rewrite ?(joined_nullish _ _ Hnull), ?(or_nullish _ _ Hnull);
    simpl; auto 10.
Qed.

(** C4, as amended. In the key-value views (consents create and get,
    accounts get, party get, sandbox create), for a response that is an
    object whose [Permissions], when present, is an array, every field that
    is missing or null is printed as [N/A], [console.error] is not called
    and the exit status is 0.  In a table, building the row of an item that
    is an object never throws and gives the stated row; a missing or null
    field shows as [N/A] in the cells that have the fallback and as the
    empty string (a blank cell) in all the others.  The rows a table
    command prints are built by that function, and its columns are among
    those cells. *)
Theorem missing_fields_rendering :
  (forall (e : env) (c : command) (data : value),
      detail_fields c <> [] ->
      json_flag c = false ->
      (forall r, In r (requests (action e c)) -> server e r = Resolved data) ->
      nullish data = false ->
      permissions_listed c data ->
      stderr (action e c) = []
      /\ exit_code (action e c) = 0
      /\ (forall l src st,
            In (l, src, st) (detail_fields c) ->
            nullish (src data) = true ->
            In [JStr l; shown st (JStr "N/A")] (stdout (action e c))))
  /\ (forall (c : command) (build : value -> M row) (item : value),
        row_builder c = Some build ->
        nullish item = false ->
        throws (build item) = false
        /\ build item = ret (stated_row c item)
        /\ (forall k l src fallback,
              In (k, src, fallback) (cells c) ->
              nullish (src item) = true ->
              cell_text (col k l) (stated_row c item)
              = if fallback then "N/A" else ""))
  /\ (forall (e : env) (c : command) (build : value -> M row),
        row_builder c = Some build ->
        exists (msg name items : jstring) (columns : list column),
          table_items c = Some items
          /\ action e c
             = guarded
                 (let* data := withSpinner msg
                                 (send e (getClient e) (stated_method c)
                                    (stated_path c) (query_of c)
                                    (payload_of e c)) in
                  if json_flag c then printJson data
                  else
                    let* list := or_else (get_then data "Data" items)
                                   (ret (JArr [])) in
                    let* tableData := array_map name list build in
                    printTable (Some tableData) columns)
          /\ Forall
               (fun cl =>
                  format cl = None
                  /\ exists src fallback,
                       In (key cl, src, fallback) (cells c))
               columns).
Proof.
  split; [| split].
  - intros e c data Hf Hj Hs%server_of_requests Hd Hp.
    by apply detail_view_fields.
  - intros c build item Hb Hi.
    rewrite (row_builder_stated c build item Hb Hi).
    split; [reflexivity | split; [reflexivity |]].
    intros k l src fallback. apply stated_row_cell.
  - intros e c build. apply table_action.
Qed.

(** *** Configuration *)

Lemma config_set_store (cfg : gmap jstring value) (options : config_options) :
  snd (config_set cfg options) = inr (stated_store cfg options).
Proof.
  destruct options as [[[| a1 s1] |] [[| a2 s2] |] [[| a3 s3] |]];
    reflexivity.
Qed.

Lemma config_set_exit (cfg : gmap jstring value) (options : config_options) :
  exit_code (config_set cfg options) = 0.
Proof.
  destruct options as [[[| a1 s1] |] [[| a2 s2] |] [[| a3 s3] |]];
    reflexivity.
Qed.

Lemma write_supplied_lookup (k k' : jstring) (o : option jstring)
    (cfg : gmap jstring value) :
  write_supplied k o cfg !! k'
  = if jeqb k k'
    then match supplied o with
         | Some v => Some (JStr v)
         | None => cfg !! k'
         end
    else cfg !! k'.
Proof.
  unfold write_supplied. destruct (jeqb_spec k k') as [<- | Hne];
    destruct (supplied o); try done.
  - apply lookup_insert_eq.
  - by apply lookup_insert_ne.
Qed.

Lemma supplied_some (o : option jstring) (v : jstring) :
  o = Some v -> v <> "" -> supplied o = Some v.
Proof.
  intros -> Hv. simpl. by destruct (jeqb_spec v "").
Qed.

(** C9, as amended. [config set] returns, leaves exit status 0, and writes
    exactly the keys whose option is supplied with a non-empty value: each
    such key holds the given value afterwards and every other key of the
    store is unchanged.  When no option carries a non-empty value it prints
    one error message and the store is the one it started from. *)
Theorem config_set_frame (cfg : gmap jstring value) (options : config_options) :
  exists cfg',
    snd (config_set cfg options) = inr cfg'
    /\ exit_code (config_set cfg options) = 0
    /\ cfg' !! "baseUrl"
       = match supplied (opt_baseUrl options) with
         | Some v => Some (JStr v)
         | None => cfg !! "baseUrl"
         end
    /\ cfg' !! "accessToken"
       = match supplied (opt_accessToken options) with
         | Some v => Some (JStr v)
         | None => cfg !! "accessToken"
         end
    /\ cfg' !! "sandboxId"
       = match supplied (opt_sandboxId options) with
         | Some v => Some (JStr v)
         | None => cfg !! "sandboxId"
         end
    /\ (forall k, k <> "baseUrl" -> k <> "accessToken" -> k <> "sandboxId" ->
                  cfg' !! k = cfg !! k)
    /\ (supplied (opt_baseUrl options) = None ->
        supplied (opt_accessToken options) = None ->
        supplied (opt_sandboxId options) = None ->
        cfg' = cfg
        /\ stdout (config_set cfg options) = []
        /\ stderr (config_set cfg options)
           = [[JStr (paint Red ballot_x ++ " "
                       ++ "No options provided. Use --base-url, --access-token, or --sandbox-id")]]).
Proof.
  exists (stated_store cfg options).
  split; [apply config_set_store |]. split; [apply config_set_exit |].
  unfold stated_store. rewrite !write_supplied_lookup. simpl.
  split; [reflexivity |]. split; [reflexivity |]. split; [reflexivity |].
  split.
  - intros k H1 H2 H3. rewrite !write_supplied_lookup.
    destruct (jeqb_spec "sandboxId" k); [congruence |].
    destruct (jeqb_spec "accessToken" k); [congruence |].
    destruct (jeqb_spec "baseUrl" k); [congruence | done].
  - intros Hb Ha Hs. split; [| split].
    + unfold write_supplied. by rewrite Hb, Ha, Hs.
    + destruct options as [[[| a1 s1] |] [[| a2 s2] |] [[| a3 s3] |]];
        simpl in *; try discriminate; reflexivity.
    + destruct options as [[[| a1 s1] |] [[| a2 s2] |] [[| a3 s3] |]];
        simpl in *; try discriminate; reflexivity.
Qed.

(** [config set] only ever stores values that JavaScript treats as true. *)
Lemma config_set_stores_truthy (cfg cfg' : gmap jstring value)
    (options : config_options) :
  (forall k v, cfg !! k = Some v -> truthy v = true) ->
  snd (config_set cfg options) = inr cfg' ->
  forall k v, cfg' !! k = Some v -> truthy v = true.
Proof.
  intros Hcfg Hset k v. rewrite config_set_store in Hset.
  injection Hset as <-. unfold stated_store.
  rewrite !write_supplied_lookup.
  assert (Hsup : forall o w, supplied o = Some w -> truthy (JStr w) = true).
  { intros [w' |] w; simpl; [| done].
    destruct (jeqb_spec w' ""); [done |]. intros [= <-]. simpl.
    by destruct (jeqb_spec w' ""). }
  repeat match goal with
         | |- context [jeqb ?a k] => destruct (jeqb a k)
         | |- context [supplied ?o] =>
             let Ho := fresh "Ho" in
             destruct (supplied o) eqn:Ho;
             [apply Hsup in Ho |]
         end;
    try (intros [= <-]; assumption); apply Hcfg.
Qed.

Lemma config_show_stdout (cfg : gmap jstring value) :
  stdout (config_show cfg)
  = [[chalk Bold (JStr (newline ++ "NBG CLI Configuration" ++ newline))];
     [JStr "Base URL:      ";
      chalk Cyan (or_ (getConfig cfg "baseUrl")
                    (JStr "https://apis.nbg.gr/uk/v3_1 (default)"))];
     [JStr "Access Token:  ";
      if is_string (or_ (getConfig cfg "accessToken") (JStr "Not set")) "Not set"
      then chalk Yellow (or_ (getConfig cfg "accessToken") (JStr "Not set"))
      else chalk Green (JStr "Set")];
     [JStr "Sandbox ID:    ";
      if is_string (or_ (getConfig cfg "sandboxId") (JStr "Not set")) "Not set"
      then chalk Yellow (or_ (getConfig cfg "sandboxId") (JStr "Not set"))
      else chalk Cyan (or_ (getConfig cfg "sandboxId") (JStr "Not set"))];
     [JStr ""]].
Proof. reflexivity. Qed.

Lemma or_string (v : jstring) (b : value) : v <> "" -> or_ (JStr v) b = JStr v.
Proof. intros Hv. unfold or_. simpl. by destruct (jeqb_spec v ""). Qed.

(** C8, as amended. After [config set] with a non-empty value [v] for an
    option, [config show] prints [v] on the line of the base URL and of the
    sandbox id; on the line of the access token it prints the word [Set],
    not the token (both lines print [Not set] for the value [Not set]). *)
Theorem config_round_trip (cfg : gmap jstring value) (options : config_options) :
  exists cfg',
    snd (config_set cfg options) = inr cfg'
    /\ (forall v, opt_baseUrl options = Some v -> v <> "" ->
          In [JStr "Base URL:      "; chalk Cyan (JStr v)]
            (stdout (config_show cfg')))
    /\ (forall v, opt_sandboxId options = Some v -> v <> "" ->
          In [JStr "Sandbox ID:    ";
              chalk (if jeqb v "Not set" then Yellow else Cyan) (JStr v)]
            (stdout (config_show cfg')))
    /\ (forall v, opt_accessToken options = Some v -> v <> "" ->
          In [JStr "Access Token:  ";
              if jeqb v "Not set" then chalk Yellow (JStr v)
              else chalk Green (JStr "Set")]
            (stdout (config_show cfg'))).
Proof.
  exists (stated_store cfg options).
  split; [apply config_set_store |].
  rewrite config_show_stdout. unfold getConfig, stated_store.
  rewrite !write_supplied_lookup. simpl.
  split; [| split]; intros v Ho Hv; rewrite (supplied_some _ _ Ho Hv); simpl;
    rewrite (or_string v) by done; simpl.
  - auto.
  - destruct (jeqb v "Not set"); auto.
  - destruct (jeqb v "Not set"); auto.
Qed.

(** *** The shape of a run *)

(** X1. [withSpinner] stops the spinner exactly once, after the events of
    the wrapped call, whether the call resolves or throws, and hands on
    its result or its exception unchanged. *)
Theorem spinner_always_stopped {A} (msg : jstring) (fn : M A) :
  trace (withSpinner msg fn)
  = (SpinnerStart msg :: trace fn ++ [SpinnerStop])%list
  /\ snd (withSpinner msg fn) = snd fn.
Proof.
  unfold withSpinner. rewrite bind_emit.
  destruct fn as [t [err | a]]; unfold prefix, try_catch, bind, ret, throw,
    emit, trace; simpl; rewrite ?app_nil_r; done.
Qed.

Lemma logs_only_ret {A} (a : A) : logs_only (ret a).
Proof. apply List.Forall_nil. Qed.

Lemma logs_only_throw {A} (e : js_error) : logs_only (throw (A := A) e).
Proof. apply List.Forall_nil. Qed.

Lemma logs_only_log (args : list value) : logs_only (emit (ConsoleLog args)).
Proof. apply List.Forall_cons; [reflexivity | apply List.Forall_nil]. Qed.

Lemma logs_only_bind {A B} (m : M A) (f : A -> M B) :
  logs_only m -> (forall a, logs_only (f a)) -> logs_only (bind m f).
Proof.
  unfold logs_only, trace. destruct m as [t [e | a]]; simpl; [done |].
  intros Hm Hf. specialize (Hf a). destruct (f a) as [t' r]. simpl in *.
  apply Forall_app. by split.
Qed.

Lemma logs_only_get (v : value) (k : jstring) : logs_only (get v k).
Proof. unfold get. destruct (nullish v); apply List.Forall_nil. Qed.

Lemma logs_only_map_M {A B} (f : A -> M B) (xs : list A) :
  (forall a, logs_only (f a)) -> logs_only (map_M f xs).
Proof.
  intros Hf. induction xs as [| x xs IH]; simpl; [apply logs_only_ret |].
  apply logs_only_bind; [apply Hf |]. intros y.
  apply logs_only_bind; [apply IH |]. intros ys. apply logs_only_ret.
Qed.

Lemma logs_only_array_map {B} (name : jstring) (v : value)
    (f : value -> M B) :
  (forall a, logs_only (f a)) -> logs_only (array_map name v f).
Proof.
  intros Hf. destruct v; simpl; try apply logs_only_throw.
  by apply logs_only_map_M.
Qed.

Lemma logs_only_opt_join (name : jstring) (v : value) (sep : jstring) :
  logs_only (opt_join name v sep).
Proof. destruct v; apply List.Forall_nil. Qed.

Lemma logs_only_printTable (data : option (list row))
    (columns : list column) :
  logs_only (printTable data columns).
Proof.
  destruct data as [[| r rows] |]; try apply logs_only_log.
  unfold printTable. cbv beta iota zeta. rewrite emit_all_run.
  unfold logs_only, trace, bind, emit. cbn [fst snd].
  apply List.Forall_cons; [reflexivity |].
  apply List.Forall_cons; [reflexivity |].
  apply Forall_app. split.
  - apply Forall_forall. intros ev Hev.
    apply list_elem_of_In, in_map_iff in Hev as (x & <- & _). reflexivity.
  - apply List.Forall_cons; [reflexivity | apply List.Forall_nil].
Qed.

#[local] Hint Resolve logs_only_ret logs_only_throw logs_only_log
  logs_only_get logs_only_opt_join logs_only_printTable logs_only_array_map
  logs_only_bind : logs.
#[local] Hint Extern 1 (logs_only (if ?b then _ else _)) => destruct b : logs.
#[local] Hint Extern 1 (logs_only (get_then _ _ _)) => unfold get_then : logs.
#[local] Hint Extern 1 (logs_only (or_else _ _)) => unfold or_else : logs.
#[local] Hint Extern 1 (logs_only (log_field _ _)) => unfold log_field : logs.
#[local] Hint Extern 1 (logs_only (log_text _)) => unfold log_text : logs.
#[local] Hint Extern 1 (logs_only (printJson _)) => unfold printJson : logs.
#[local] Hint Extern 1 (logs_only (printSuccess _)) =>
  unfold printSuccess : logs.
#[local] Hint Extern 1 (logs_only (account_row _)) => unfold account_row : logs.
#[local] Hint Extern 1 (logs_only (balance_row _)) => unfold balance_row : logs.
#[local] Hint Extern 1 (logs_only (all_balances_row _)) =>
  unfold all_balances_row : logs.
#[local] Hint Extern 1 (logs_only (transaction_row _)) =>
  unfold transaction_row : logs.
#[local] Hint Extern 1 (logs_only (all_transactions_row _)) =>
  unfold all_transactions_row : logs.
#[local] Hint Extern 1 (logs_only (beneficiary_row _)) =>
  unfold beneficiary_row : logs.
#[local] Hint Extern 1 (logs_only (standing_order_row _)) =>
  unfold standing_order_row : logs.
#[local] Hint Extern 1 (logs_only (scheduled_payment_row _)) =>
  unfold scheduled_payment_row : logs.
#[local] Hint Extern 1 (logs_only (statement_row _)) =>
  unfold statement_row : logs.

Lemma action_logs_only (e : env) (c : command) :
  exists (msg : jstring) (k : value -> M unit),
    action e c
    = guarded (let* data := withSpinner msg
                              (send e (getClient e) (stated_method c)
                                 (stated_path c) (query_of c) (payload_of e c)) in
               k data)
    /\ (forall d, logs_only (k d)).
Proof.
  destruct c; do 2 eexists;
    (split; [reflexivity | intros d; cbv beta; eauto 80 with logs nocore]).
Qed.

Lemma logs_only_lines (t : list event) :
  Forall (fun ev => is_log ev = true) t ->
  exists lines, t = List.map ConsoleLog lines.
Proof.
  induction 1 as [| ev t Hev _ (lines & ->)]; [by exists [] |].
  destruct ev; try discriminate. by exists (args :: lines).
Qed.

Lemma exit_code_after_logs {A} (lines : list (list value))
    (post : list event) (r : js_error + A) :
  exit_code ((List.map ConsoleLog lines ++ post)%list, r)
  = exit_code (post, r).
Proof.
  unfold exit_code, trace. cbn [fst snd].
  induction lines as [| l lines IH]; [done | exact IH].
Qed.

Lemma exit_code_spinner {A} (msg : jstring) (r : request) (m : M A) :
  exit_code (prefix [SpinnerStart msg; Http r; SpinnerStop] m) = exit_code m.
Proof. by destruct m. Qed.

(** X2. Every run of an API command has one shape: the spinner starts,
    one request is issued, the spinner stops, some lines are printed with
    [console.log], and then either the run ends with status 0, or one line
    is printed with [console.error] and the process exits with status 1.
    No exception escapes the action. *)
Theorem run_shape (e : env) (c : command) :
  exists (msg : jstring) (lines : list (list value)),
    throws (action e c) = false
    /\ ((trace (action e c)
         = ([SpinnerStart msg; Http (request_of e c); SpinnerStop]
              ++ List.map ConsoleLog lines)%list
         /\ exit_code (action e c) = 0)
        \/ (exists line,
              trace (action e c)
              = ([SpinnerStart msg; Http (request_of e c); SpinnerStop]
                   ++ List.map ConsoleLog lines
                   ++ [ConsoleError [JStr line]; ProcessExit 1])%list
              /\ exit_code (action e c) = 1)).
Proof.
  destruct (action_logs_only e c) as (msg & k & -> & Hk).
  rewrite guarded_call. fold (request_of e c).
  destruct (server e (request_of e c)) as [d | err].
  - specialize (Hk d). unfold logs_only, trace in Hk.
    destruct (k d) as [t [err | []]]; simpl in Hk;
      apply logs_only_lines in Hk as (lines & ->); exists msg, lines.
    + split; [reflexivity |]. right. eexists. split; [reflexivity |].
      rewrite exit_code_spinner.
      unfold guarded, try_catch, printError, process_exit, emit, bind.
      cbn [fst snd]. by rewrite exit_code_after_logs.
    + split; [reflexivity |]. left. split; [reflexivity |].
      rewrite exit_code_spinner. unfold guarded, try_catch.
      rewrite <- (app_nil_r (List.map ConsoleLog lines)).
      by rewrite exit_code_after_logs.
  - exists msg, []. split; [reflexivity |]. right. eexists.
    split; reflexivity.
Qed.

(** *** What goes on the wire *)

(** X3. Every request carries [Accept] and [Content-Type]
    [application/json]; it carries no [Authorization] header when no access
    token is configured, no [sandbox-id] header when no sandbox id is
    configured, and never any header besides these four. *)
Theorem request_headers (e : env) (c : command) (r : request) :
  In r (requests (action e c)) ->
  headers r !! "Accept" = Some (JStr "application/json")
  /\ headers r !! "Content-Type" = Some (JStr "application/json")
  /\ (truthy (getConfig (config e) "accessToken") = false ->
      headers r !! "Authorization" = None)
  /\ (truthy (getConfig (config e) "sandboxId") = false ->
      headers r !! "sandbox-id" = None)
  /\ (forall k, k <> "Accept" -> k <> "Content-Type" ->
                k <> "Authorization" -> k <> "sandbox-id" ->
                headers r !! k = None).
Proof.
  rewrite requests_action. intros [<- | []].
  unfold request_of, issued, getClient. cbn [headers client_headers].
  destruct (truthy (getConfig (config e) "accessToken"));
    destruct (truthy (getConfig (config e) "sandboxId"));
    (split; [by rewrite ?lookup_insert_ne, ?lookup_insert_eq by done |]);
    (split; [by rewrite ?lookup_insert_ne, ?lookup_insert_eq by done |]);
    (split; [intros Ht; try discriminate Ht;
             by rewrite ?lookup_insert_ne, ?lookup_empty by done |]);
    (split; [intros Ht; try discriminate Ht;
             by rewrite ?lookup_insert_ne, ?lookup_empty by done |]);
    intros k H1 H2 H3 H4;
    by rewrite ?lookup_insert_ne, ?lookup_empty by done.
Qed.

(** X4. A request has a body exactly when it is a POST (consents create
    and sandbox create); a command without [--from] and [--to] never sends
    a query parameter. *)
Theorem bodies_and_queries (e : env) (c : command) (r : request) :
  In r (requests (action e c)) ->
  (is_Some (body r) <-> method r = POST)
  /\ (range_of c = None -> forall q, params r = Some q -> q = ∅).
Proof.
  rewrite requests_action. intros [<- | []].
  destruct c; simpl; (split; [split |]);
    try (intros [b Hb]; discriminate Hb); try discriminate; try done;
    try (intros _; eexists; reflexivity);
    intros _ q [= <-]; reflexivity.
Qed.

(** X5. The body of [consents create] is [{ Data: { Permissions, ... } }]:
    the permissions are the ones given, or [ReadAccountsBasic] and
    [ReadBalances] when none is given, and [ExpirationDateTime] is present
    exactly when [--expiration] has a non-empty value. *)
Theorem consent_payload (e : env) (options : consent_options) (r : request) :
  In r (requests (action e (ConsentsCreate options))) ->
  exists b,
    body r = Some b
    /\ property (property b "Data") "Permissions"
       = JArr (List.map JStr
                 (match opt_permissions options with
                  | Some given => given
                  | None => ["ReadAccountsBasic"; "ReadBalances"]
                  end))
    /\ property (property b "Data") "ExpirationDateTime"
       = match supplied (opt_expiration options) with
         | Some date => JStr date
         | None => JUndefined
         end.
Proof.
  rewrite requests_action. intros [<- | []].
  eexists. split; [reflexivity |].
  destruct options as [[given |] [[| a s] |] json]; split; reflexivity.
Qed.


(** *** Responses of an unexpected shape *)

(** X6. With [--json] off, a response body that is [null] or [undefined]
    makes every command except [consents delete] fail on the read of
    [data.Data]: the message of the TypeError is printed with the one call
    of [console.error] and the process exits with status 1.  [console.log]
    is not called, except by [sandbox create], which has printed its
    heading by then. *)
Theorem null_body_is_reported (e : env) (c : command) (data : value) :
  reads_body c = true ->
  json_flag c = false ->
  (forall r, In r (requests (action e c)) -> server e r = Resolved data) ->
  nullish data = true ->
  stderr (action e c)
  = [[JStr (paint Red ballot_x ++ " " ++ "Cannot read properties of "
              ++ ToString data ++ " (reading 'Data')")]]
  /\ exit_code (action e c) = 1
  /\ stdout (action e c)
     = match c with
       | SandboxCreate _ =>
           [[chalk Bold (JStr (newline ++ "Sandbox Created" ++ newline))]]
       | _ => []
       end.
Proof.
  intros Hr Hj Hs%server_of_requests Hd.
  destruct c; simpl in Hr; try discriminate; simpl in Hj;
    enter_view Hs; rewrite guarded_call, Hs, Hj;
    unfold get_then, or_else, get; rewrite Hd; repeat split.
Qed.

(** X7. Without [--json], [consents delete] never looks at the response
    body: whatever a successful answer holds, an empty body included, it
    prints the confirmation and ends with status 0. *)
Theorem delete_ignores_body (e : env) (consentId : jstring) (data : value) :
  (forall r, In r (requests (action e (ConsentsDelete consentId false))) ->
             server e r = Resolved data) ->
  stdout (action e (ConsentsDelete consentId false))
  = [[JStr (paint Green check_mark ++ " " ++ "Consent " ++ consentId
              ++ " deleted successfully")]]
  /\ stderr (action e (ConsentsDelete consentId false)) = []
  /\ exit_code (action e (ConsentsDelete consentId false)) = 0.
Proof.
  intros Hs%server_of_requests. enter_view Hs. rewrite guarded_call, Hs.
  repeat split.
Qed.

Lemma table_run (e : env) (c : command) (items : jstring)
    (build : value -> M row) (data : value) :
  table_items c = Some items ->
  row_builder c = Some build ->
  json_flag c = false ->
  server e (request_of e c) = Resolved data ->
  nullish data = false ->
  exists msg : jstring,
    action e c
    = prefix [SpinnerStart msg; Http (request_of e c); SpinnerStop]
        (guarded
           (let* tableData :=
              array_map (list_name c)
                (or_ (opt_get (property data "Data") items) (JArr [])) build in
            printTable (Some tableData) (table_columns c))).
Proof.
  intros Hi Hb Hj Hs Hd.
  destruct (table_action_columns e c items build Hi Hb) as (msg & ->).
  exists msg. rewrite guarded_call. fold (request_of e c). rewrite Hs, Hj.
  by rewrite get_then_ok, or_else_ret, bind_ret.
Qed.

(** X8. With [--json] off, when the item list of a table command is
    present but is not an array (and not a falsy value), the call of [.map]
    throws: no table is printed ([console.log] is not called), the one
    call of [console.error] names the failed call and the process exits
    with status 1. *)
Theorem non_array_items_reported (e : env) (c : command) (items : jstring)
    (data : value) :
  table_items c = Some items ->
  json_flag c = false ->
  (forall r, In r (requests (action e c)) -> server e r = Resolved data) ->
  nullish data = false ->
  truthy (opt_get (property data "Data") items) = true ->
  (forall xs, opt_get (property data "Data") items <> JArr xs) ->
  stdout (action e c) = []
  /\ stderr (action e c)
     = [[JStr (paint Red ballot_x ++ " " ++ list_name c ++ ".map is not a function")]]
  /\ exit_code (action e c) = 1.
Proof.
  intros Hi Hj Hs%server_of_requests Hd Ht Hna.
  assert (Hb : exists build, row_builder c = Some build).
  { destruct c; simpl in Hi; try discriminate; eexists; reflexivity. }
  destruct Hb as (build & Hb).
  destruct (table_run e c items build data Hi Hb Hj Hs Hd) as (msg & ->).
  unfold or_. rewrite Ht.
  destruct (opt_get (property data "Data") items) as [| | b | n | s | xs | ps];
    try discriminate Ht; try (by destruct (Hna xs)); repeat split.
Qed.


(** *** Tables of items *)

Lemma map_M_rows (c : command) (build : value -> M row) (xs : list value) :
  row_builder c = Some build ->
  Forall (fun x => nullish x = false) xs ->
  map_M build xs = ret (List.map (stated_row c) xs).
Proof.
  intros Hb. induction 1 as [| x xs Hx _ IH]; [reflexivity |].
  cbn [map_M List.map].
  by rewrite (row_builder_stated c build x Hb Hx), bind_ret, IH, bind_ret.
Qed.

Lemma printTable_returns (data : option (list row)) (columns : list column) :
  snd (printTable data columns) = inr tt.
Proof.
  destruct data as [[| r rows] |]; try reflexivity.
  unfold printTable. cbv beta iota zeta. by rewrite emit_all_run.
Qed.

Lemma guarded_returns (m : M unit) : snd m = inr tt -> guarded m = m.
Proof. destruct m as [t [err | []]]; [discriminate | reflexivity]. Qed.

Lemma logs_only_quiet_errors {A} (m : M A) :
  logs_only m -> stderr m = [].
Proof.
  unfold logs_only, stderr. intros (lines & ->)%logs_only_lines.
  induction lines as [| l lines IH]; [reflexivity | exact IH].
Qed.

(** X9. When the item list of a table command is a non-empty array of
    objects, the command prints exactly the table of the stated rows under
    its own columns: a header, a rule, one line per item and the count.
    [console.error] is not called and the exit status is 0. *)
Theorem table_of_items (e : env) (c : command) (items : jstring)
    (data : value) (xs : list value) :
  table_items c = Some items ->
  json_flag c = false ->
  (forall r, In r (requests (action e c)) -> server e r = Resolved data) ->
  nullish data = false ->
  opt_get (property data "Data") items = JArr xs ->
  xs <> [] ->
  Forall (fun x => nullish x = false) xs ->
  stdout (action e c)
  = stdout (printTable (Some (List.map (stated_row c) xs)) (table_columns c))
  /\ List.length (stdout (action e c)) = List.length xs + 3
  /\ stderr (action e c) = []
  /\ exit_code (action e c) = 0.
Proof.
  intros Hi Hj Hs%server_of_requests Hd Hxs Hne Hok.
  assert (Hb : exists build, row_builder c = Some build).
  { destruct c; simpl in Hi; try discriminate; eexists; reflexivity. }
  destruct Hb as (build & Hb).
  destruct (table_run e c items build data Hi Hb Hj Hs Hd) as (msg & ->).
  rewrite Hxs. unfold or_. cbn [truthy array_map].
  rewrite (map_M_rows c build xs Hb Hok), bind_ret.
  rewrite guarded_returns by apply printTable_returns.
  set (table := printTable _ _).
  assert (Hout : stdout (prefix [SpinnerStart msg; Http (request_of e c);
                                 SpinnerStop] table) = stdout table)
    by (by destruct table).
  assert (Herr : stderr (prefix [SpinnerStart msg; Http (request_of e c);
                                 SpinnerStop] table) = stderr table)
    by (by destruct table).
  rewrite Hout, Herr, exit_code_spinner. split; [reflexivity |].
  split; [| split].
  - subst table. destruct xs as [| x xs]; [done |].
    cbn [List.map]. rewrite printTable_stdout.
    cbn [List.length]. rewrite length_app, !length_map. cbn [List.length].
    rewrite length_map. lia.
  - apply logs_only_quiet_errors, logs_only_printTable.
  - pose proof (logs_only_printTable
                  (Some (List.map (stated_row c) xs)) (table_columns c)) as Hl.
    pose proof (printTable_returns
                  (Some (List.map (stated_row c) xs)) (table_columns c)) as Hr.
    fold table in Hl, Hr. unfold logs_only, trace in Hl.
    destruct table as [t r]. simpl in Hl, Hr. subst r.
    apply logs_only_lines in Hl as (lines & ->).
    rewrite <- (app_nil_r (List.map ConsoleLog lines)).
    by rewrite exit_code_after_logs.
Qed.

Lemma row_builder_throws (c : command) (build : value -> M row) (x : value) :
  row_builder c = Some build ->
  nullish x = true ->
  exists err, build x = throw err.
Proof.
  intros Hb Hx.
  destruct c; simpl in Hb; try discriminate; injection Hb as <-;
    unfold account_row, balance_row, all_balances_row, transaction_row,
      all_transactions_row, beneficiary_row, standing_order_row,
      scheduled_payment_row, statement_row, get;
    rewrite Hx; eexists; reflexivity.
Qed.

Lemma map_M_throws (c : command) (build : value -> M row) (xs : list value) :
  row_builder c = Some build ->
  Exists (fun x => nullish x = true) xs ->
  exists err, map_M build xs = throw err.
Proof.
  intros Hb. induction xs as [| x xs IH]; intros Hex.
  - by apply Exists_nil in Hex.
  - cbn [map_M]. destruct (nullish x) eqn:Hx.
    + destruct (row_builder_throws c build x Hb Hx) as (err & ->).
      by exists err.
    + rewrite (row_builder_stated c build x Hb Hx), bind_ret.
      apply Exists_cons in Hex as [Hex | Hex]; [congruence |].
      destruct (IH Hex) as (err & ->). by exists err.
Qed.

(** X10. One item that is [null] (or [undefined]) in the list of a table
    command suppresses the whole table: [console.log] is not called, one
    error line is reported and the process exits with status 1. *)
Theorem null_item_suppresses_table (e : env) (c : command) (items : jstring)
    (data : value) (xs : list value) :
  table_items c = Some items ->
  json_flag c = false ->
  (forall r, In r (requests (action e c)) -> server e r = Resolved data) ->
  nullish data = false ->
  opt_get (property data "Data") items = JArr xs ->
  Exists (fun x => nullish x = true) xs ->
  stdout (action e c) = []
  /\ (exists line, stderr (action e c) = [[JStr line]])
  /\ exit_code (action e c) = 1.
Proof.
  intros Hi Hj Hs%server_of_requests Hd Hxs Hex.
  assert (Hb : exists build, row_builder c = Some build).
  { destruct c; simpl in Hi; try discriminate; eexists; reflexivity. }
  destruct Hb as (build & Hb).
  destruct (table_run e c items build data Hi Hb Hj Hs Hd) as (msg & ->).
  rewrite Hxs. unfold or_. cbn [truthy array_map].
  destruct (map_M_throws c build xs Hb Hex) as (err & ->).
  split; [reflexivity |]. split; [eexists |]; reflexivity.
Qed.


(** *** Lines of a table *)

Lemma length_concat_cells (f g : column -> jstring) (columns : list column) :
  (forall c, In c columns -> length (f c) = length (g c)) ->
  length (join "  " (List.map f columns))
  = length (join "  " (List.map g columns)).
Proof.
  induction columns as [| c columns IH]; intros Hfg; [reflexivity |].
  assert (Hc : length (f c) = length (g c))
    by (apply Hfg; by left).
  assert (Hrest : length (join "  " (List.map f columns))
                  = length (join "  " (List.map g columns)))
    by (apply IH; intros c' Hc'; apply Hfg; by right).
  destruct columns as [| c' columns]; [exact Hc |].
  cbn [List.map join] in *.
  rewrite !length_app. by rewrite Hc, Hrest.
Qed.

(** X11. When the column keys are pairwise distinct, none of them is
    [__proto__] and no label is longer than 50 characters, every data line
    of the table is exactly as long as the header line, whatever the row
    holds: the columns line up. *)
Theorem table_lines_align (data : list row) (columns : list column) (r : row) :
  List.NoDup (List.map key columns) ->
  Forall (fun c => key c <> "__proto__") columns ->
  Forall (fun c => length (label c) <= 50) columns ->
  length (data_line (table_widths data columns) columns r)
  = length (header_line (table_widths data columns) columns).
Proof.
  intros Hnd Hkeys Hlab. unfold data_line, header_line.
  apply length_concat_cells. intros c Hc.
  rewrite Forall_forall in Hkeys. specialize (Hkeys c).
  rewrite list_elem_of_In in Hkeys. specialize (Hkeys Hc).
  unfold data_cell, header_cell, table_widths. cbv zeta.
  rewrite (widths_get_own _ _ _ (widths_column data columns ∅ c Hnd Hc Hkeys)).
  cbn [substring_to to_length].
  rewrite !length_padEnd, length_take.
  rewrite Forall_forall in Hlab. specialize (Hlab c).
  rewrite list_elem_of_In in Hlab. specialize (Hlab Hc).
  unfold stated_width. lia.
Qed.

(** *** Configuration commands *)

(** X12. [config show] prints five lines, calls no API and writes nothing
    to standard error; whatever the store holds, the access-token line
    shows either [Not set] or [Set], one of these two words and not what
    the store holds. *)
Theorem config_show_masks_token (cfg : gmap jstring value) :
  exists base token sandbox,
    stdout (config_show cfg)
    = [[chalk Bold (JStr (newline ++ "NBG CLI Configuration" ++ newline))];
       [JStr "Base URL:      "; base];
       [JStr "Access Token:  "; token];
       [JStr "Sandbox ID:    "; sandbox];
       [JStr ""]]
    /\ (token = chalk Yellow (JStr "Not set")
        \/ token = chalk Green (JStr "Set"))
    /\ (truthy (getConfig cfg "accessToken") = false ->
        token = chalk Yellow (JStr "Not set"))
    /\ stderr (config_show cfg) = []
    /\ requests (config_show cfg) = []
    /\ exit_code (config_show cfg) = 0.
Proof.
  do 3 eexists. split; [apply config_show_stdout |].
  split; [| split; [| repeat split]].
  - destruct (is_string (or_ (getConfig cfg "accessToken") (JStr "Not set"))
                "Not set") eqn:His; [left | by right].
    destruct (or_ (getConfig cfg "accessToken") (JStr "Not set"));
      try discriminate His.
    simpl in His. by apply jeqb_eq in His as ->.
  - intros Hf. unfold or_. by rewrite Hf.
Qed.

(** X13. [config set] prints one confirmation per key it writes, in the
    order base URL, access token, sandbox id, and never echoes a value; it
    writes to standard error exactly when it writes no key, and calls no
    API. *)
Theorem config_set_reports (cfg : gmap jstring value)
    (options : config_options) :
  stdout (config_set cfg options)
  = List.map (fun msg => [JStr (paint Green check_mark ++ " " ++ msg)])
      (set_messages options)
  /\ (stderr (config_set cfg options) = [] <-> set_messages options <> [])
  /\ requests (config_set cfg options) = [].
Proof.
  destruct options as [[[| a1 s1] |] [[| a2 s2] |] [[| a3 s3] |]];
    (split; [reflexivity | split; [split; intros H; done | reflexivity]]).
Qed.

Lemma stated_store_idempotent (cfg : gmap jstring value)
    (options : config_options) :
  stated_store (stated_store cfg options) options = stated_store cfg options.
Proof.
  apply map_eq. intros k. unfold stated_store.
  rewrite !write_supplied_lookup.
  destruct (jeqb "sandboxId" k), (jeqb "accessToken" k),
    (jeqb "baseUrl" k), (supplied (opt_sandboxId options)),
    (supplied (opt_accessToken options)), (supplied (opt_baseUrl options));
    reflexivity.
Qed.

(** X14. [config set] is idempotent: run again with the same options on
    the store it left, it leaves that store as it is. *)
Theorem config_set_idempotent (cfg cfg' : gmap jstring value)
    (options : config_options) :
  snd (config_set cfg options) = inr cfg' ->
  snd (config_set cfg' options) = inr cfg'.
Proof.
  rewrite !config_set_store. intros [= <-].
  by rewrite stated_store_idempotent.
Qed.

(** X15. What [config set] stores is what later requests use: after it
    ran with a non-empty base URL, access token or sandbox id, every API
    command sends its request to that base URL, with that token as
    [Authorization: Bearer] and that id as [sandbox-id]. *)
Theorem configured_values_are_sent (e : env) (options : config_options)
    (cfg' : gmap jstring value) (c : command) (r : request) :
  snd (config_set (config e) options) = inr cfg' ->
  In r (requests (action (with_config e cfg') c)) ->
  (forall u, opt_baseUrl options = Some u -> u <> "" -> baseURL r = JStr u)
  /\ (forall t, opt_accessToken options = Some t -> t <> "" ->
        headers r !! "Authorization" = Some (JStr ("Bearer " ++ t)))
  /\ (forall i, opt_sandboxId options = Some i -> i <> "" ->
        headers r !! "sandbox-id" = Some (JStr i)).
Proof.
  rewrite config_set_store. intros [= <-].
  rewrite requests_action. intros [<- | []].
  unfold request_of, issued, getClient, getConfig, with_config, stated_store.
  cbn [baseURL headers client_baseURL client_headers config].
  rewrite !write_supplied_lookup. cbn [jeqb N.eqb Pos.eqb andb].
  split; [| split].
  - intros u Hu Hne. rewrite (supplied_some _ _ Hu Hne). unfold default, id.
    by apply or_string.
  - intros t Ht Hne. rewrite (supplied_some _ _ Ht Hne). unfold default, id.
    assert (Htrue : truthy (JStr t) = true)
      by (simpl; by destruct (jeqb_spec t "")).
    rewrite Htrue.
    match goal with
    | |- context [if truthy ?v then _ else _] => destruct (truthy v)
    end; [rewrite lookup_insert_ne by done |]; by rewrite lookup_insert_eq.
  - intros i Hi Hne. rewrite (supplied_some _ _ Hi Hne). unfold default, id.
    assert (Htrue : truthy (JStr i) = true)
      by (simpl; by destruct (jeqb_spec i "")).
    rewrite Htrue. by rewrite lookup_insert_eq.
Qed.


(** *** Bounds that need no condition *)

Lemma measured_column (data : list row) (ws : gmap jstring width)
    (c : column) :
  measured ws -> measured (measure_column data ws c).
Proof.
  intros [Hproto Hws].
  destruct (decide (key c = "__proto__")) as [Hk | Hk].
  - rewrite measure_column_proto by done. by split.
  - rewrite measure_column_insert by done. split.
    + by rewrite lookup_insert_ne.
    + intros k w. destruct (decide (key c = k)) as [<- | Hne].
      * rewrite lookup_insert_eq. intros [= <-]. eexists. split; [done |].
        unfold stated_width. lia.
      * rewrite lookup_insert_ne by done. apply Hws.
Qed.

Lemma measured_widths (data : list row) (columns : list column)
    (ws : gmap jstring width) :
  measured ws -> measured (fold_left (measure_column data) columns ws).
Proof.
  revert ws. induction columns as [| c columns IH]; intros ws Hws; [done |].
  cbn [fold_left]. by apply IH, measured_column.
Qed.

Lemma widths_defined (data : list row) (columns : list column)
    (ws : gmap jstring width) (k : jstring) :
  In k (List.map key columns) ->
  k <> "__proto__" ->
  is_Some (fold_left (measure_column data) columns ws !! k).
Proof.
  intros Hk Hp. revert ws Hk.
  induction columns as [| c columns IH]; intros ws Hk; [destruct Hk |].
  cbn [fold_left].
  destruct (in_dec jstring_dec k (List.map key columns))
    as [Hin | Hout]; [by apply IH |].
  destruct Hk as [<- | Hk]; [| done].
  rewrite widths_other by done. rewrite measure_column_insert by done.
  rewrite lookup_insert_eq. by eexists.
Qed.

(** X16. Whatever the column list (long labels, repeated keys and names of
    [Object.prototype] included), no data cell is ever wider than 50
    characters.  A column whose key is not [__proto__] has a width of at
    most 50 and each of its data cells is exactly that wide; under the key
    [__proto__] no width is ever stored and the data cells are empty. *)
Theorem data_cells_at_most_50 (data : list row) (columns : list column)
    (c : column) (r : row) :
  In c columns ->
  let widths := table_widths data columns in
  length (data_cell widths c r) <= 50
  /\ (key c <> "__proto__" ->
      exists w,
        widths_get widths (key c) = Own (Len w)
        /\ w <= 50
        /\ length (data_cell widths c r) = w)
  /\ (key c = "__proto__" ->
      widths_get widths (key c) = Inherited
      /\ data_cell widths c r = []).
Proof.
  intros Hc widths.
  assert (Hm : measured widths).
  { apply measured_widths. split; [done |]. intros k w.
    by rewrite lookup_empty. }
  assert (Hown : key c <> "__proto__" ->
                 exists w,
                   widths_get widths (key c) = Own (Len w)
                   /\ w <= 50
                   /\ length (data_cell widths c r) = w).
  { intros Hk.
    destruct (widths_defined data columns ∅ (key c) (in_map key _ _ Hc) Hk)
      as (x & Hx).
    change (widths !! key c = Some x) in Hx.
    destruct (proj2 Hm _ _ Hx) as (w & -> & Hw).
    exists w. split; [by apply widths_get_own |]. split; [done |].
    unfold data_cell. cbv zeta.
    rewrite (widths_get_own _ _ _ Hx). cbn [substring_to to_length].
    rewrite length_padEnd, length_take. lia. }
  assert (Hinh : key c = "__proto__" ->
                 widths_get widths (key c) = Inherited
                 /\ data_cell widths c r = []).
  { intros Hk. unfold data_cell. cbv zeta. rewrite Hk.
    rewrite (widths_get_proto _ (proj1 Hm)). by split. }
  split; [| by split].
  destruct (decide (key c = "__proto__")) as [Hk | Hk].
  - rewrite (proj2 (Hinh Hk)). simpl. lia.
  - destruct (Hown Hk) as (w & _ & Hw & ->). exact Hw.
Qed.

(** *** Lines of a detail view *)

(** X17. In a key-value view, each line shows the value of its field, or
    [N/A] when the field holds any falsy value (missing, null, [0],
    [false] or the empty string); the permissions line shows the
    permissions joined by a comma and a space. *)
Theorem detail_lines_show_fields (e : env) (c : command) (data : value)
    (l : jstring) (src : value -> value) (st : option style) :
  json_flag c = false ->
  (forall r, In r (requests (action e c)) -> server e r = Resolved data) ->
  nullish data = false ->
  permissions_listed c data ->
  In (l, src, st) (detail_fields c) ->
  In [JStr l;
      shown st
        (or_ (if jeqb l "Permissions:   "
              then joined (src data) ", "
              else src data)
           (JStr "N/A"))]
    (stdout (action e c)).
Proof.
  intros Hj Hs%server_of_requests Hd Hp Hin.
  destruct c; simpl in Hin; try contradiction; simpl in Hj;
    unfold permissions_listed in Hp; unfold consent_of in Hp;
    enter_view Hs; rewrite guarded_call, Hs, Hj; autorewrite with view;
    rewrite ?(opt_join_listed _ _ _ Hp); autorewrite with view;
    unfold log_field, log_text, printSuccess; cbn [bind emit app];
    unfold guarded, try_catch, prefix; cbn [fst snd app];
    repeat (destruct Hin as [Hin | Hin]; [injection Hin as <- <- <- |]);
    try destruct Hin;
    unfold consent_of, account_of, party_of, stdout, trace, shown;
    cbn [fst omap list_omap]; simpl; auto 10.
Qed.


End Properties.

(** ** The properties at work on the sample worlds *)

Section Witnesses.

#[local] Existing Instance plain_node.

(** [JSON.stringify] with two spaces on a small document. *)
Example JSON_stringify_sample :
  JSON_stringify (JObj [("a", JArr [JNum 1%Z; JNull]); ("b", JObj []);
                        ("c", JUndefined)]) 2
  = JStr ("{" ++ newline
            ++ "  " ++ dquote ++ "a" ++ dquote ++ ": [" ++ newline
            ++ "    1," ++ newline
            ++ "    null" ++ newline
            ++ "  ]," ++ newline
            ++ "  " ++ dquote ++ "b" ++ dquote ++ ": {}" ++ newline
            ++ "}").
Proof. reflexivity. Qed.

(** [JSON.stringify] keeps a surrogate pair and escapes a surrogate that
    stands alone. *)
Example JSON_stringify_surrogates :
  JSON_stringify (JArr [JStr [55357; 56832]%N; JStr [55357]%N]) 0
  = JStr ("[" ++ dquote ++ [55357; 56832]%N ++ dquote ++ ","
            ++ dquote ++ "\ud83d" ++ dquote ++ "]").
Proof. reflexivity. Qed.

(** The balances table of [one_balance], as printed. *)
Example balances_table_sample :
  stdout (action (world ∅ (answering one_balance)) (BalancesGet "A1" false))
  = [[JStr "Type              Amount  Currency  Credit/Debit  DateTime"];
     [JStr (repeat_string light_horizontal 58)];
     [JStr "ClosingAvailable                                          "];
     [JStr (newline ++ "1 result(s)")]].
Proof. reflexivity. Qed.

(** A column keyed [__proto__] gets no width on the plain object
    [widths]: its header cell is the bare label and its data cells are
    empty. *)
Example prototype_column_sample :
  stdout (printTable (Some [[("id", JStr "A1")]]) prototype_columns)
  = [[JStr "P  ID"];
     [JStr (repeat_string light_horizontal 5)];
     [JStr "  A1"];
     [JStr (newline ++ "1 result(s)")]].
Proof. reflexivity. Qed.

(** A row that does not own the key reads the built-in of that name. *)
Example inherited_cell_sample :
  cell_text (col "constructor" "C") [("id", JStr "A1")]
  = "function Object() { [native code] }".
Proof. reflexivity. Qed.

Lemma failed_call_reported_witness :
  let e := world ∅ (refusing unauthorized) in
  let c := AccountsList false in
  (forall r, In r (requests (action e c)) -> server e r = Rejected unauthorized)
  /\ stderr (action e c) = [[JStr (ballot_x ++ " Unauthorized")]]
  /\ stdout (action e c) = []
  /\ exit_code (action e c) = 1.
Proof.
  split; [intros r _; reflexivity |].
  apply (failed_call_reported (world ∅ (refusing unauthorized))
           (AccountsList false) unauthorized).
  intros r _. reflexivity.
Defined.

Lemma json_prints_raw_body_witness :
  let e := world ∅ (answering one_account) in
  let c := AccountsGet "A1" true in
  json_flag c = true
  /\ (forall r, In r (requests (action e c)) -> server e r = Resolved one_account)
  /\ is_json one_account = true
  /\ stdout (action e c)
     = [[JStr ("{" ++ newline
                 ++ "  " ++ dquote ++ "Data" ++ dquote ++ ": {" ++ newline
                 ++ "    " ++ dquote ++ "Account" ++ dquote ++ ": [" ++ newline
                 ++ "      {" ++ newline
                 ++ "        " ++ dquote ++ "AccountId" ++ dquote ++ ": "
                 ++ dquote ++ "A1" ++ dquote ++ newline
                 ++ "      }" ++ newline
                 ++ "    ]" ++ newline
                 ++ "  }" ++ newline
                 ++ "}")]]
  /\ stderr (action e c) = []
  /\ exit_code (action e c) = 0
  /\ exists text,
       stdout (action e c) = [[JStr text]] /\ pretty_json 0 one_account text.
Proof.
  intros e c.
  destruct (json_prints_raw_body e c one_account eq_refl
              (fun r _ => eq_refl))
    as (Hout & Herr & Hexit & Htext).
  split; [reflexivity |]. split; [intros r _; reflexivity |].
  split; [reflexivity |]. split; [exact Hout |]. split; [exact Herr |].
  split; [exact Hexit |]. exact (Htext eq_refl).
Defined.

Lemma request_carries_configuration_witness :
  let e := world sandbox_config (answering no_items) in
  let c := BalancesList false in
  In (request_of e c) (requests (action e c))
  /\ url (request_of e c) = "/balances"
  /\ baseURL (request_of e c) = JStr "https://sandbox.example/uk/v3_1"
  /\ headers (request_of e c) !! "Authorization" = Some (JStr "Bearer tok-123")
  /\ headers (request_of e c) !! "sandbox-id" = Some (JStr "sb-1").
Proof.
  intros e c.
  assert (Hin : In (request_of e c) (requests (action e c)))
    by (left; reflexivity).
  split; [exact Hin |].
  destruct (request_carries_configuration e c (request_of e c) Hin)
    as (Hu & Hb & _ & Ha & Hs).
  split; [exact Hu |].
  split; [apply (Hb (JStr "https://sandbox.example/uk/v3_1")); split; reflexivity |].
  split.
  - apply (Ha (JStr "tok-123")). split; reflexivity.
  - apply (Hs (JStr "sb-1")). split; reflexivity.
Defined.

Lemma range_query_parameters_witness :
  let e := world ∅ (answering no_items) in
  let c := TransactionsGet "A1" from_january in
  range_of c = Some ("fromBookingDateTime", "toBookingDateTime", from_january)
  /\ In (request_of e c) (requests (action e c))
  /\ exists q,
       params (request_of e c) = Some q
       /\ q !! "fromBookingDateTime" = Some (JStr "2026-01-01T00:00:00Z")
       /\ q !! "toBookingDateTime" = None
       /\ (forall k, k <> "fromBookingDateTime" -> k <> "toBookingDateTime" ->
                     q !! k = None).
Proof.
  intros e c.
  assert (Hin : In (request_of e c) (requests (action e c)))
    by (left; reflexivity).
  split; [reflexivity |]. split; [exact Hin |].
  destruct (range_query_parameters e c (request_of e c)
              "fromBookingDateTime" "toBookingDateTime" from_january
              eq_refl Hin)
    as (q & Hq & Hfrom & Hto & Hother).
  exists q. split; [exact Hq |]. split; [| split; [| exact Hother]].
  - apply Hfrom. exists "2026-01-01T00:00:00Z". repeat split. discriminate.
  - destruct (q !! "toBookingDateTime") as [v |] eqn:Hv; [| reflexivity].
    destruct (proj1 (Hto v) eq_refl) as (s & Hs & _). discriminate Hs.
Defined.

(** C6 as stated fails: [--from] given with an empty value is given, and
    the request is sent with an empty query. *)
Lemma empty_from_is_not_sent :
  opt_from from_empty = Some ""
  /\ List.map params
       (requests (action (world ∅ (answering no_items))
                    (TransactionsGet "A1" from_empty)))
     = [Some ∅].
Proof. split; reflexivity. Qed.

Lemma empty_table_message_witness :
  let e := world ∅ (answering no_items) in
  let c := AccountsList false in
  table_items c = Some "Account"
  /\ json_flag c = false
  /\ (forall r, In r (requests (action e c)) -> server e r = Resolved no_items)
  /\ nullish no_items = false
  /\ (nullish (opt_get (property no_items "Data") "Account") = true
      \/ opt_get (property no_items "Data") "Account" = JArr [])
  /\ stdout (action e c) = [[JStr "No results found."]]
  /\ stderr (action e c) = []
  /\ exit_code (action e c) = 0.
Proof.
  split; [reflexivity |]. split; [reflexivity |].
  split; [intros r _; reflexivity |]. split; [reflexivity |].
  split; [left; reflexivity |].
  apply (empty_table_message (world ∅ (answering no_items))
           (AccountsList false) "Account" no_items);
    [reflexivity | reflexivity | intros r _; reflexivity | reflexivity
    | left; reflexivity].
Defined.

(** C10 as stated fails: a successful response whose body is [null] holds
    no item list, yet [accounts list] prints no [No results found.]: the
    read of [data.Data] throws, the action reports the TypeError and the
    process exits with status 1. *)
Lemma null_body_prints_no_empty_table :
  let e := world ∅ (answering JNull) in
  let c := AccountsList false in
  table_items c = Some "Account"
  /\ json_flag c = false
  /\ server e (request_of e c) = Resolved JNull
  /\ stdout (action e c) = []
  /\ stderr (action e c)
     = [[JStr (ballot_x ++ " Cannot read properties of null (reading 'Data')")]]
  /\ exit_code (action e c) = 1.
Proof. repeat split. Qed.

Lemma table_cells_have_column_width_witness :
  let cl := col "name" "Name" in
  let r := [("id", JStr "A1"); ("name", JStr "N/A"); ("type", JStr "Personal");
            ("subtype", JStr "CurrentAccount")] in
  let widths := table_widths [r] (table_columns (AccountsList false)) in
  In cl (table_columns (AccountsList false))
  /\ widths_get widths "name" = Own (Len 4)
  /\ header_cell widths cl = "Name"
  /\ data_cell widths cl r = "N/A "
  /\ stdout (printTable (Some [r]) (table_columns (AccountsList false)))
     = [[JStr "Account ID  Name  Type      Subtype       "];
        [JStr (repeat_string light_horizontal 42)];
        [JStr "A1          N/A   Personal  CurrentAccount"];
        [JStr (newline ++ "1 result(s)")]].
Proof.
  intros cl r widths.
  assert (Hc : In cl (table_columns (AccountsList false)))
    by (right; left; reflexivity).
  destruct (table_cells_have_column_width (AccountsList false) r [] cl Hc)
    as (_ & Hw & _ & Hh & _ & Hrows & Hout & _).
  split; [exact Hc |]. split; [exact Hw |]. split; [exact Hh |].
  split; [| exact Hout].
  destruct (Hrows r (or_introl eq_refl)) as (_ & _ & Hpad).
  apply Hpad. vm_compute. lia.
Defined.

Lemma missing_fields_rendering_witness :
  let e := world ∅ (answering one_account) in
  In [JStr "Nickname:      "; JStr "N/A"]
    (stdout (action e (AccountsGet "A1" false)))
  /\ exit_code (action e (AccountsGet "A1" false)) = 0
  /\ balance_row bare_balance = ret (stated_row (BalancesGet "A1" false) bare_balance)
  /\ cell_text (col "amount" "Amount")
       (stated_row (BalancesGet "A1" false) bare_balance) = ""
  /\ cell_text (col "type" "Type")
       (stated_row (AccountsList false) (JObj [("AccountId", JStr "A1")]))
     = "N/A".
Proof.
  intros e. destruct missing_fields_rendering as (Hview & Hrow & _).
  destruct (Hview e (AccountsGet "A1" false) one_account) as (_ & Hexit & Hna);
    [discriminate | reflexivity | intros r _; reflexivity | reflexivity
    | exact I |].
  split.
  { apply (Hna "Nickname:      "
             (fun d => property (account_of d) "Nickname") None);
      [right; left; reflexivity | reflexivity]. }
  split; [exact Hexit |].
  destruct (Hrow (BalancesGet "A1" false) balance_row bare_balance eq_refl
              eq_refl) as (_ & Hbuilt & Hcell).
  split; [exact Hbuilt |].
  split.
  - apply (Hcell "amount" "Amount" (nested "Amount" "Amount") false);
      [right; left; reflexivity | reflexivity].
  - destruct (Hrow (AccountsList false) account_row
                (JObj [("AccountId", JStr "A1")]) eq_refl eq_refl)
      as (_ & _ & Hcell').
    apply (Hcell' "type" "Type" (field "AccountType") true);
      [right; right; left; reflexivity | reflexivity].
Defined.

(** C4 as stated fails: the balance of [one_balance] has no amount, no
    currency, no indicator and no date; its row shows four blank cells and
    [N/A] appears nowhere in what is printed. *)
Lemma missing_amount_is_blank :
  let e := world ∅ (answering one_balance) in
  nullish (nested "Amount" "Amount" bare_balance) = true
  /\ stdout (action e (BalancesGet "A1" false))
     = [[JStr "Type              Amount  Currency  Credit/Debit  DateTime"];
        [JStr (repeat_string light_horizontal 58)];
        [JStr "ClosingAvailable                                          "];
        [JStr (newline ++ "1 result(s)")]]
  /\ exit_code (action e (BalancesGet "A1" false)) = 0.
Proof. repeat split. Qed.

Lemma config_round_trip_witness :
  exists cfg',
    snd (config_set ∅ token_only) = inr cfg'
    /\ In [JStr "Access Token:  "; JStr "Set"] (stdout (config_show cfg')).
Proof.
  destruct (config_round_trip ∅ token_only) as (cfg' & Hset & _ & _ & Htoken).
  exists cfg'. split; [exact Hset |].
  apply (Htoken "tok-123"); [reflexivity | discriminate].
Defined.

(** C8 as stated fails: after [config set --access-token tok-123] on an
    empty store, [config show] prints [Set] for the token and the token
    itself on no line. *)
Lemma access_token_is_masked :
  snd (config_set ∅ token_only) = inr (<["accessToken" := JStr "tok-123"]> ∅)
  /\ stdout (config_show (<["accessToken" := JStr "tok-123"]> ∅))
     = [[JStr (newline ++ "NBG CLI Configuration" ++ newline)];
        [JStr "Base URL:      "; JStr "https://apis.nbg.gr/uk/v3_1 (default)"];
        [JStr "Access Token:  "; JStr "Set"];
        [JStr "Sandbox ID:    "; JStr "Not set"];
        [JStr ""]]
  /\ Forall (fun line => ~ In (JStr "tok-123") line)
       (stdout (config_show (<["accessToken" := JStr "tok-123"]> ∅))).
Proof.
  split; [reflexivity |]. split; [reflexivity |].
  repeat (apply List.Forall_cons; [simpl; intuition discriminate |]).
  apply List.Forall_nil.
Qed.

Lemma config_set_frame_witness :
  exists cfg',
    snd (config_set sandbox_config token_only) = inr cfg'
    /\ cfg' !! "accessToken" = Some (JStr "tok-123")
    /\ cfg' !! "baseUrl" = Some (JStr "https://sandbox.example/uk/v3_1")
    /\ cfg' !! "sandboxId" = Some (JStr "sb-1").
Proof.
  destruct (config_set_frame sandbox_config token_only)
    as (cfg' & Hset & _ & Hbase & Htoken & Hsandbox & _).
  exists cfg'. split; [exact Hset |].
  split; [exact Htoken |]. split; [exact Hbase | exact Hsandbox].
Defined.

(** C9 as stated fails: [--base-url] supplied with an empty value writes no
    key, and the command reports that no option was provided. *)
Lemma empty_option_is_not_written :
  opt_baseUrl empty_base_url = Some ""
  /\ snd (config_set ∅ empty_base_url) = inr ∅
  /\ stderr (config_set ∅ empty_base_url)
     = [[JStr (ballot_x ++ " No options provided. Use --base-url, --access-token, or --sandbox-id")]].
Proof. repeat split. Qed.

Lemma request_headers_witness :
  let e := world (<["accessToken" := JStr "tok-123"]> ∅) (answering no_items) in
  let c := AccountsList false in
  In (request_of e c) (requests (action e c))
  /\ headers (request_of e c) !! "Accept" = Some (JStr "application/json")
  /\ headers (request_of e c) !! "sandbox-id" = None
  /\ headers (request_of e c) !! "Cookie" = None.
Proof.
  intros e c.
  assert (Hin : In (request_of e c) (requests (action e c)))
    by (left; reflexivity).
  split; [exact Hin |].
  destruct (request_headers e c (request_of e c) Hin)
    as (Haccept & _ & _ & Hsandbox & Hother).
  split; [exact Haccept |]. split; [apply Hsandbox; reflexivity |].
  apply Hother; discriminate.
Defined.

Lemma bodies_and_queries_witness :
  let e := world ∅ (answering no_items) in
  let c := BalancesList false in
  In (request_of e c) (requests (action e c))
  /\ range_of c = None
  /\ (is_Some (body (request_of e c)) <-> method (request_of e c) = POST)
  /\ (forall q, params (request_of e c) = Some q -> q = ∅).
Proof.
  intros e c.
  assert (Hin : In (request_of e c) (requests (action e c)))
    by (left; reflexivity).
  split; [exact Hin |]. split; [reflexivity |].
  destruct (bodies_and_queries e c (request_of e c) Hin) as (Hbody & Hquery).
  split; [exact Hbody | exact (Hquery eq_refl)].
Defined.

Lemma consent_payload_witness :
  let e := world ∅ (answering no_items) in
  let c := ConsentsCreate consent_with_expiry in
  In (request_of e c) (requests (action e c))
  /\ exists b,
       body (request_of e c) = Some b
       /\ property (property b "Data") "Permissions"
          = JArr [JStr "ReadAccountsBasic"; JStr "ReadBalances"]
       /\ property (property b "Data") "ExpirationDateTime"
          = JStr "2026-12-31T23:59:59Z".
Proof.
  intros e c.
  assert (Hin : In (request_of e c) (requests (action e c)))
    by (left; reflexivity).
  split; [exact Hin |].
  destruct (consent_payload e consent_with_expiry (request_of e c) Hin)
    as (b & Hb & Hperm & Hexp).
  exists b. split; [exact Hb |]. split; [exact Hperm | exact Hexp].
Defined.

Lemma null_body_is_reported_witness :
  let e := world ∅ (answering JNull) in
  let c := AccountsGet "A1" false in
  reads_body c = true
  /\ json_flag c = false
  /\ (forall r, In r (requests (action e c)) -> server e r = Resolved JNull)
  /\ nullish JNull = true
  /\ stderr (action e c)
     = [[JStr (ballot_x ++ " Cannot read properties of null (reading 'Data')")]]
  /\ exit_code (action e c) = 1
  /\ stdout (action e c) = [].
Proof.
  split; [reflexivity |]. split; [reflexivity |].
  split; [intros r _; reflexivity |]. split; [reflexivity |].
  apply (null_body_is_reported (world ∅ (answering JNull))
           (AccountsGet "A1" false) JNull);
    [reflexivity | reflexivity | intros r _; reflexivity | reflexivity].
Defined.

Lemma delete_ignores_body_witness :
  let e := world ∅ (answering (JStr "")) in
  (forall r, In r (requests (action e (ConsentsDelete "c-1" false))) ->
             server e r = Resolved (JStr ""))
  /\ stdout (action e (ConsentsDelete "c-1" false))
     = [[JStr (check_mark ++ " Consent c-1 deleted successfully")]]
  /\ stderr (action e (ConsentsDelete "c-1" false)) = []
  /\ exit_code (action e (ConsentsDelete "c-1" false)) = 0.
Proof.
  split; [intros r _; reflexivity |].
  apply (delete_ignores_body (world ∅ (answering (JStr ""))) "c-1" (JStr "")).
  intros r _. reflexivity.
Defined.

Lemma non_array_items_reported_witness :
  let e := world ∅ (answering accounts_not_a_list) in
  let c := AccountsList false in
  table_items c = Some "Account"
  /\ json_flag c = false
  /\ (forall r, In r (requests (action e c)) ->
                server e r = Resolved accounts_not_a_list)
  /\ nullish accounts_not_a_list = false
  /\ truthy (opt_get (property accounts_not_a_list "Data") "Account") = true
  /\ (forall xs, opt_get (property accounts_not_a_list "Data") "Account"
                 <> JArr xs)
  /\ stdout (action e c) = []
  /\ stderr (action e c) = [[JStr (ballot_x ++ " accounts.map is not a function")]]
  /\ exit_code (action e c) = 1.
Proof.
  split; [reflexivity |]. split; [reflexivity |].
  split; [intros r _; reflexivity |]. split; [reflexivity |].
  split; [reflexivity |]. split; [intros xs; discriminate |].
  apply (non_array_items_reported (world ∅ (answering accounts_not_a_list))
           (AccountsList false) "Account" accounts_not_a_list);
    [reflexivity | reflexivity | intros r _; reflexivity | reflexivity
    | reflexivity | intros xs; discriminate].
Defined.

Lemma table_of_items_witness :
  let e := world ∅ (answering two_accounts) in
  let c := AccountsList false in
  table_items c = Some "Account"
  /\ json_flag c = false
  /\ (forall r, In r (requests (action e c)) -> server e r = Resolved two_accounts)
  /\ nullish two_accounts = false
  /\ opt_get (property two_accounts "Data") "Account"
     = JArr [first_account; second_account]
  /\ [first_account; second_account] <> []
  /\ Forall (fun x => nullish x = false) [first_account; second_account]
  /\ stdout (action e c)
     = [[JStr "Account ID  Name  Type  Subtype"];
        [JStr (repeat_string light_horizontal 31)];
        [JStr "A1          Main  N/A   N/A    "];
        [JStr "A2          N/A   N/A   N/A    "];
        [JStr (newline ++ "2 result(s)")]]
  /\ List.length (stdout (action e c)) = 5
  /\ stderr (action e c) = []
  /\ exit_code (action e c) = 0.
Proof.
  intros e c.
  assert (Hok : Forall (fun x => nullish x = false)
                  [first_account; second_account]).
  { repeat (apply List.Forall_cons; [reflexivity |]). apply List.Forall_nil. }
  split; [reflexivity |]. split; [reflexivity |].
  split; [intros r _; reflexivity |]. split; [reflexivity |].
  split; [reflexivity |]. split; [discriminate |]. split; [exact Hok |].
  destruct (table_of_items e c "Account" two_accounts
              [first_account; second_account])
    as (Hout & Hlen & Herr & Hexit);
    [reflexivity | reflexivity | intros r _; reflexivity | reflexivity
    | reflexivity | discriminate | exact Hok |].
  split; [rewrite Hout; reflexivity |].
  split; [exact Hlen |]. split; [exact Herr | exact Hexit].
Defined.

Lemma null_item_suppresses_table_witness :
  let e := world ∅ (answering accounts_with_null) in
  let c := AccountsList false in
  table_items c = Some "Account"
  /\ json_flag c = false
  /\ (forall r, In r (requests (action e c)) ->
                server e r = Resolved accounts_with_null)
  /\ nullish accounts_with_null = false
  /\ opt_get (property accounts_with_null "Data") "Account"
     = JArr [first_account; JNull]
  /\ Exists (fun x => nullish x = true) [first_account; JNull]
  /\ stdout (action e c) = []
  /\ (exists line, stderr (action e c) = [[JStr line]])
  /\ exit_code (action e c) = 1.
Proof.
  intros e c.
  assert (Hex : Exists (fun x => nullish x = true) [first_account; JNull]).
  { apply List.Exists_cons_tl, List.Exists_cons_hd. reflexivity. }
  split; [reflexivity |]. split; [reflexivity |].
  split; [intros r _; reflexivity |]. split; [reflexivity |].
  split; [reflexivity |]. split; [exact Hex |].
  apply (null_item_suppresses_table e c "Account" accounts_with_null
           [first_account; JNull]);
    [reflexivity | reflexivity | intros r _; reflexivity | reflexivity
    | reflexivity | exact Hex].
Defined.

Lemma table_lines_align_witness :
  let widths := table_widths accounts_rows accounts_columns in
  List.NoDup (List.map key accounts_columns)
  /\ Forall (fun c => key c <> "__proto__") accounts_columns
  /\ Forall (fun c => length (label c) <= 50) accounts_columns
  /\ length (data_line widths accounts_columns [("id", JStr "A-0001")])
     = length (header_line widths accounts_columns).
Proof.
  intros widths.
  assert (Hnd : List.NoDup (List.map key accounts_columns)).
  { repeat (apply List.NoDup_cons; [simpl; intuition discriminate |]).
    apply List.NoDup_nil. }
  assert (Hkeys : Forall (fun c => key c <> "__proto__") accounts_columns).
  { repeat (apply List.Forall_cons; [simpl; discriminate |]).
    apply List.Forall_nil. }
  assert (Hlab : Forall (fun c => length (label c) <= 50)
                   accounts_columns).
  { repeat (apply List.Forall_cons; [simpl; lia |]). apply List.Forall_nil. }
  split; [exact Hnd |]. split; [exact Hkeys |]. split; [exact Hlab |].
  exact (table_lines_align accounts_rows accounts_columns
           [("id", JStr "A-0001")] Hnd Hkeys Hlab).
Defined.

Lemma config_set_idempotent_witness :
  snd (config_set ∅ token_only) = inr (<["accessToken" := JStr "tok-123"]> ∅)
  /\ snd (config_set (<["accessToken" := JStr "tok-123"]> ∅) token_only)
     = inr (<["accessToken" := JStr "tok-123"]> ∅).
Proof.
  assert (Hset : snd (config_set ∅ token_only)
                 = inr (<["accessToken" := JStr "tok-123"]> ∅))
    by reflexivity.
  split; [exact Hset |].
  exact (config_set_idempotent ∅ _ token_only Hset).
Defined.

Lemma configured_values_are_sent_witness :
  let e := world ∅ (answering no_items) in
  let c := PartyGet "A1" false in
  exists cfg',
    snd (config_set (config e) all_three) = inr cfg'
    /\ In (request_of (with_config e cfg') c)
         (requests (action (with_config e cfg') c))
    /\ baseURL (request_of (with_config e cfg') c)
       = JStr "https://sandbox.example/uk/v3_1"
    /\ headers (request_of (with_config e cfg') c) !! "Authorization"
       = Some (JStr "Bearer tok-123")
    /\ headers (request_of (with_config e cfg') c) !! "sandbox-id"
       = Some (JStr "sb-1").
Proof.
  intros e c. exists (stated_store (config e) all_three).
  assert (Hset : snd (config_set (config e) all_three)
                 = inr (stated_store (config e) all_three))
    by apply config_set_store.
  assert (Hin : In (request_of (with_config e (stated_store (config e) all_three)) c)
                  (requests (action (with_config e (stated_store (config e) all_three)) c)))
    by (left; reflexivity).
  split; [exact Hset |]. split; [exact Hin |].
  destruct (configured_values_are_sent e all_three _ c _ Hset Hin)
    as (Hbase & Htoken & Hsandbox).
  split; [apply Hbase; [reflexivity | discriminate] |].
  split; [apply Htoken; [reflexivity | discriminate] |].
  apply Hsandbox; [reflexivity | discriminate].
Defined.

Lemma data_cells_at_most_50_witness :
  let c := col "__proto__" "P" in
  let r := [("id", JStr "A1")] in
  let widths := table_widths [r] prototype_columns in
  In c prototype_columns
  /\ length (data_cell widths c r) <= 50
  /\ widths_get widths "__proto__" = Inherited
  /\ data_cell widths c r = [].
Proof.
  intros c r widths.
  assert (Hin : In c prototype_columns) by (left; reflexivity).
  destruct (data_cells_at_most_50 [r] prototype_columns c r Hin)
    as (Hle & _ & Hproto).
  split; [exact Hin |]. split; [exact Hle |]. exact (Hproto eq_refl).
Defined.

Lemma detail_lines_show_fields_witness :
  let e := world ∅ (answering one_account) in
  let c := AccountsGet "A1" false in
  json_flag c = false
  /\ (forall r, In r (requests (action e c)) -> server e r = Resolved one_account)
  /\ nullish one_account = false
  /\ permissions_listed c one_account
  /\ In ("Account ID:    ", fun d => property (account_of d) "AccountId",
         Some Cyan) (detail_fields c)
  /\ In [JStr "Account ID:    "; JStr "A1"] (stdout (action e c)).
Proof.
  intros e c.
  split; [reflexivity |]. split; [intros r _; reflexivity |].
  split; [reflexivity |]. split; [exact I |].
  split; [left; reflexivity |].
  apply (detail_lines_show_fields e c one_account "Account ID:    "
           (fun d => property (account_of d) "AccountId") (Some Cyan));
    [reflexivity | intros r _; reflexivity | reflexivity | exact I
    | left; reflexivity].
Defined.


End Witnesses.
